(** * PDP-11 simulator (pdp11.c): a shallow embedding and its properties

    The simulator keeps its machine in global [int] variables: eight
    registers, a 32K-word memory, four condition-code bits and six
    statistics counters.  Here the globals are the fields of one [state]
    record that every operation takes and returns.  C [int] arithmetic is
    written out on [Z] with its 32-bit two's-complement wrap-around, an
    array access outside [mem] is a [Fault OutOfBounds] result, and a failed
    [assert] is a [Fault AssertionFailed] result.  Tracing and verbose output
    do not touch the machine and are left out. *)

From Stdlib Require Import ZArith List Lia Bool.
Import ListNotations.
Local Open Scope Z_scope.

(** ** C integer arithmetic *)

Module CInt.

Definition int_min : Z := -2147483648.
Definition int_max : Z := 2147483647.

(** Reduction of a mathematical integer to a 32-bit signed [int]. *)
Definition wrap (z : Z) : Z := (z + 2147483648) mod 4294967296 - 2147483648.

Definition add (a b : Z) : Z := wrap (a + b).
Definition sub (a b : Z) : Z := wrap (a - b).
(** [a << n] on an [int]: the bits that leave the word are dropped. *)
Definition shl (a n : Z) : Z := wrap (Z.shiftl a n).
(** [a >> n] on an [int]: arithmetic shift. *)
Definition shr (a n : Z) : Z := Z.shiftr a n.
(** Conversion of an [int] to [unsigned]. *)
Definition to_unsigned (z : Z) : Z := z mod 4294967296.
(** The cast [(uint16_t) z]. *)
Definition to_uint16 (z : Z) : Z := z mod 65536.

End CInt.

(** ** Constants of the source *)

Definition MEM_SIZE : Z := 32 * 1024.

Definition MOV : Z := 1.
Definition CMP : Z := 2.
Definition ADD : Z := 6.
Definition SUB : Z := 14.

Definition SOB : Z := 63.
Definition BR : Z := 4.
Definition BNE : Z := 1.
Definition BEQ : Z := 12.

Definition ASR : Z := 50.
Definition ASL : Z := 51.

Definition REG : Z := 0.
Definition REG_DEF : Z := 1.
Definition AUTO_INC : Z := 2.
Definition AUTO_INC_DEF : Z := 3.
Definition AUTO_DEC : Z := 4.
Definition AUTO_DEC_DEF : Z := 5.
Definition INDEX : Z := 6.
Definition INDEX_DEF : Z := 7.

(** The octal masks 0177777, 0100000 and 0200000. *)
Definition MASK16 : Z := 65535.
Definition SIGN16 : Z := 32768.
Definition BIT16 : Z := 65536.

(** ** Machine state *)

(** [struct ap]. *)
Record addr_phrase := mkAP {
  ap_mode : Z;
  ap_reg : Z;
  ap_addr : Z;
  ap_value : Z
}.

(** The arrays [reg] and [mem] are functions from the index; [upd] is the
    assignment to one cell. *)
Definition upd (f : Z -> Z) (k v : Z) : Z -> Z :=
  fun j => if j =? k then v else f j.

Record state := mkState {
  reg : Z -> Z;
  mem : Z -> Z;
  cc_n : Z;
  cc_z : Z;
  cc_v : Z;
  cc_c : Z;
  instr_exec : Z;
  instr_fetch : Z;
  words_read : Z;
  words_written : Z;
  br_exec : Z;
  br_taken : Z
}.

Definition with_reg (st : state) (r : Z -> Z) : state :=
  mkState r (mem st) (cc_n st) (cc_z st) (cc_v st) (cc_c st) (instr_exec st)
          (instr_fetch st) (words_read st) (words_written st) (br_exec st)
          (br_taken st).

Definition with_mem (st : state) (m : Z -> Z) : state :=
  mkState (reg st) m (cc_n st) (cc_z st) (cc_v st) (cc_c st) (instr_exec st)
          (instr_fetch st) (words_read st) (words_written st) (br_exec st)
          (br_taken st).

Definition with_cc (st : state) (n z v c : Z) : state :=
  mkState (reg st) (mem st) n z v c (instr_exec st)
          (instr_fetch st) (words_read st) (words_written st) (br_exec st)
          (br_taken st).

Definition with_instr_exec (st : state) (k : Z) : state :=
  mkState (reg st) (mem st) (cc_n st) (cc_z st) (cc_v st) (cc_c st) k
          (instr_fetch st) (words_read st) (words_written st) (br_exec st)
          (br_taken st).

Definition with_instr_fetch (st : state) (k : Z) : state :=
  mkState (reg st) (mem st) (cc_n st) (cc_z st) (cc_v st) (cc_c st)
          (instr_exec st) k (words_read st) (words_written st) (br_exec st)
          (br_taken st).

Definition with_words_read (st : state) (k : Z) : state :=
  mkState (reg st) (mem st) (cc_n st) (cc_z st) (cc_v st) (cc_c st)
          (instr_exec st) (instr_fetch st) k (words_written st) (br_exec st)
          (br_taken st).

Definition with_words_written (st : state) (k : Z) : state :=
  mkState (reg st) (mem st) (cc_n st) (cc_z st) (cc_v st) (cc_c st)
          (instr_exec st) (instr_fetch st) (words_read st) k (br_exec st)
          (br_taken st).

Definition with_br_exec (st : state) (k : Z) : state :=
  mkState (reg st) (mem st) (cc_n st) (cc_z st) (cc_v st) (cc_c st)
          (instr_exec st) (instr_fetch st) (words_read st) (words_written st)
          k (br_taken st).

Definition with_br_taken (st : state) (k : Z) : state :=
  mkState (reg st) (mem st) (cc_n st) (cc_z st) (cc_v st) (cc_c st)
          (instr_exec st) (instr_fetch st) (words_read st) (words_written st)
          (br_exec st) k.

(** [reg[r] = v]; the register index always comes from a 3-bit field. *)
Definition set_reg (st : state) (r v : Z) : state :=
  with_reg st (upd (reg st) r v).

(** ** Results of fallible operations *)

Inductive fault :=
| AssertionFailed   (* assert() aborted the process *)
| OutOfBounds.      (* mem[] indexed outside 0 .. MEM_SIZE-1 *)

Inductive res (A : Type) :=
| Ok (a : A)
| Err (f : fault).
Arguments Ok {A} a.
Arguments Err {A} f.

Definition bind {A B : Type} (m : res A) (k : A -> res B) : res B :=
  match m with
  | Ok a => k a
  | Err f => Err f
  end.

Notation "x <- m ;; k" := (bind m (fun x => k))
  (at level 61, m at next level, right associativity).
Notation "' pat <- m ;; k" := (bind m (fun x => match x with pat => k end))
  (at level 61, pat pattern, m at next level, right associativity).

Definition in_mem (i : Z) : bool := (0 <=? i) && (i <? MEM_SIZE).

(** [mem[i]] as an rvalue. *)
Definition mem_read (st : state) (i : Z) : res Z :=
  if in_mem i then Ok (mem st i) else Err OutOfBounds.

(** [mem[i] = v]. *)
Definition mem_write (st : state) (i v : Z) : res state :=
  if in_mem i then Ok (with_mem st (upd (mem st) i v)) else Err OutOfBounds.

(** [assert(b)]. *)
Definition assert (b : bool) : res unit :=
  if b then Ok tt else Err AssertionFailed.

(** ** load_program *)

(** The words scanned from standard input are stored from [mem[0]] on. *)
Fixpoint load_from (ws : list Z) (i : Z) (st : state) : res state :=
  match ws with
  | [] => Ok st
  | k :: ws' => st' <- mem_write st i k ;; load_from ws' (i + 1) st'
  end.

(** The zero-initialised globals. *)
Definition zero_state : state :=
  mkState (fun _ => 0) (fun _ => 0) 0 0 0 0 0 0 0 0 0 0.

Definition load_program (ws : list Z) : res state := load_from ws 0 zero_state.

(** The machine at the start of the loop, for an input that fits in [mem]. *)
Definition loaded (ws : list Z) : state :=
  match load_program ws with
  | Ok st => st
  | Err _ => zero_state
  end.

(** ** get_operand *)

Definition get_operand (p : addr_phrase) (st : state)
  : res (addr_phrase * state) :=
  let r := ap_reg p in
  let m := ap_mode p in
  if m =? REG then
    Ok (mkAP m r 0 (reg st r), st)
  else if m =? REG_DEF then
    let addr := reg st r in
    value <- mem_read st (CInt.shr addr 1) ;;
    Ok (mkAP m r addr value, with_words_read st (CInt.add (words_read st) 1))
  else if m =? AUTO_INC then
    let st := if r =? 7
              then with_instr_fetch st (CInt.add (instr_fetch st) 1)
              else st in
    let addr := reg st r in
    _ <- assert (addr <? BIT16) ;;
    value <- mem_read st (CInt.shr addr 1) ;;
    _ <- assert (value <? BIT16) ;;
    Ok (mkAP m r addr value,
        set_reg st r (Z.land (CInt.add (reg st r) 2) MASK16))
  else if m =? AUTO_INC_DEF then
    let st := with_words_read st (CInt.add (words_read st) 1) in
    let addr := reg st r in
    addr <- mem_read st (CInt.shr addr 1) ;;
    value <- mem_read st (CInt.shr addr 1) ;;
    Ok (mkAP m r addr value, set_reg st r (CInt.add (reg st r) 2))
  else if m =? AUTO_DEC then
    let st := with_words_read st (CInt.add (words_read st) 1) in
    let st := set_reg st r (Z.land (CInt.sub (reg st r) 2) MASK16) in
    let addr := reg st r in
    value <- mem_read st (CInt.shr addr 1) ;;
    Ok (mkAP m r addr value, st)
  else if m =? AUTO_DEC_DEF then
    let st := with_words_read st (CInt.add (words_read st) 1) in
    let st := set_reg st r (CInt.sub (reg st r) 2) in
    let addr := reg st r in
    addr <- mem_read st (CInt.shr addr 1) ;;
    value <- mem_read st (CInt.shr addr 1) ;;
    Ok (mkAP m r addr value, st)
  else if m =? INDEX then
    let st := with_instr_fetch st (CInt.add (instr_fetch st) 1) in
    let st := with_words_read st (CInt.add (words_read st) 3) in
    ind <- mem_read st (CInt.shr (reg st 7) 1) ;;
    let addr := Z.land (CInt.add (reg st r) ind) MASK16 in
    let st := set_reg st 7 (Z.land (CInt.add (reg st 7) 2) MASK16) in
    value <- mem_read st (CInt.shr addr 1) ;;
    Ok (mkAP m r addr value, st)
  else if m =? INDEX_DEF then
    let st := with_instr_fetch st (CInt.add (instr_fetch st) 1) in
    let st := with_words_read st (CInt.add (words_read st) 3) in
    ind <- mem_read st (CInt.shr (reg st 7) 1) ;;
    let addr := Z.land (CInt.add (reg st r) ind) MASK16 in
    let st := set_reg st 7 (Z.land (CInt.add (reg st 7) 2) MASK16) in
    addr <- mem_read st (CInt.shr addr 1) ;;
    value <- mem_read st (CInt.shr addr 1) ;;
    Ok (mkAP m r addr value, st)
  else
    (* the switch has no default: nothing is done *)
    Ok (p, st).

(** ** The instruction bodies of [main] *)

(** [c ? 1 : 0]. *)
Definition flag (b : bool) : Z := if b then 1 else 0.

(** [x != 0] for a C condition. *)
Definition nonzero (x : Z) : bool := negb (x =? 0).

Definition exec_MOV (src dst : addr_phrase) (st : state) : res state :=
  '(src, st) <- get_operand src st ;;
  '(dst, st) <- get_operand dst st ;;
  let n := flag (nonzero (Z.land (ap_value src) SIGN16)) in
  let z := flag (ap_value src =? 0) in
  let st := with_cc st n z 0 (cc_c st) in
  if ap_mode dst =? 2 then
    st <- mem_write st (CInt.shr (ap_addr dst) 1) (ap_value src) ;;
    Ok (with_words_written st (CInt.add (words_written st) 1))
  else
    Ok (set_reg st (ap_reg dst) (ap_value src)).

Definition exec_CMP (src dst : addr_phrase) (st : state) : res state :=
  '(src, st) <- get_operand src st ;;
  '(dst, st) <- get_operand dst st ;;
  let result := CInt.sub (ap_value src) (ap_value dst) in
  let c := CInt.shr (Z.land result BIT16) 16 in
  let result := Z.land result MASK16 in
  let n := flag (nonzero (Z.land result SIGN16)) in
  let z := flag (result =? 0) in
  let v := flag (negb (Z.land (ap_value src) SIGN16 =? Z.land (ap_value dst) SIGN16)
                 && (Z.land (ap_value src) SIGN16 =? Z.land result SIGN16)) in
  Ok (with_cc st n z v c).

Definition exec_ADD (src dst : addr_phrase) (st : state) : res state :=
  '(src, st) <- get_operand src st ;;
  '(dst, st) <- get_operand dst st ;;
  let result := CInt.add (ap_value src) (ap_value dst) in
  let result := Z.land result MASK16 in
  let v := flag ((Z.land (ap_value src) SIGN16 =? Z.land (ap_value dst) SIGN16)
                 && negb (Z.land (ap_value src) SIGN16 =? Z.land result SIGN16)) in
  let c := flag (result <? CInt.add (ap_value src) (ap_value dst)) in
  let n := flag (nonzero (Z.land result SIGN16)) in
  let z := flag (result =? 0) in
  Ok (set_reg (with_cc st n z v c) (ap_reg dst) result).

Definition exec_SUB (src dst : addr_phrase) (st : state) : res state :=
  '(src, st) <- get_operand src st ;;
  '(dst, st) <- get_operand dst st ;;
  let result := CInt.sub (ap_value dst) (ap_value src) in
  let c := CInt.shr (Z.land result BIT16) 16 in
  let result := Z.land result MASK16 in
  let n := flag (nonzero (Z.land result SIGN16)) in
  let z := flag (result =? 0) in
  let v := flag (negb (Z.land (ap_value src) SIGN16 =? Z.land (ap_value dst) SIGN16)
                 && (Z.land (ap_value src) SIGN16 =? Z.land result SIGN16)) in
  Ok (set_reg (with_cc st n z v c) (ap_reg dst) result).

(** [offset = offset << 24; offset = offset >> 24;] *)
Definition shift_extend (offset : Z) : Z := CInt.shr (CInt.shl offset 24) 24.

Definition exec_BR (instruction : Z) (st : state) : state :=
  let st := with_br_exec st (CInt.add (br_exec st) 1) in
  let st := with_br_taken st (CInt.add (br_taken st) 1) in
  let offset := Z.land instruction 255 in
  let offset := shift_extend offset in
  let new_addr := Z.land (CInt.add (reg st 7) (CInt.shl offset 1)) MASK16 in
  set_reg st 7 new_addr.

Definition exec_BEQ (instruction : Z) (st : state) : state :=
  let st := with_br_exec st (CInt.add (br_exec st) 1) in
  let offset := Z.land instruction 255 in
  let new_addr := CInt.add (reg st 7) (CInt.shl offset 1) in
  if nonzero (cc_z st) then
    let st := set_reg st 7 new_addr in
    with_br_taken st (CInt.add (br_taken st) 1)
  else st.

Definition exec_ASL (dst : addr_phrase) (st : state) : res state :=
  '(dst, st) <- get_operand dst st ;;
  let result := CInt.to_uint16 (CInt.shl (reg st (ap_reg dst)) 1) in
  let n := flag (nonzero (Z.land result SIGN16)) in
  let z := flag (result =? 0) in
  let c := flag (nonzero (Z.land (ap_value dst) SIGN16)) in
  let v := Z.lxor c n in
  Ok (set_reg (with_cc st n z v c) (ap_reg dst) result).

Definition exec_ASR (dst : addr_phrase) (st : state) : res state :=
  '(dst, st) <- get_operand dst st ;;
  let result := reg st (ap_reg dst) in
  let result := CInt.shl result 16 in
  let result := CInt.shr result 16 in
  let result := CInt.to_uint16 (CInt.shr result 1) in
  let n := flag (nonzero (Z.land result SIGN16)) in
  let z := flag (result =? 0) in
  let c := flag (nonzero (Z.land (ap_value dst) 1)) in
  let v := Z.lxor c n in
  Ok (set_reg (with_cc st n z v c) (ap_reg dst) result).

Definition exec_SOB (instruction : Z) (src : addr_phrase) (st : state)
  : res state :=
  let st := with_br_exec st (CInt.add (br_exec st) 1) in
  let src := mkAP 0 (ap_reg src) (ap_addr src) (ap_value src) in
  '(src, st) <- get_operand src st ;;
  let offset := Z.land instruction 63 in
  let offset := shift_extend offset in
  let st := set_reg st (ap_reg src) (CInt.sub (reg st (ap_reg src)) 1) in
  if nonzero (reg st (ap_reg src)) then
    let st := with_br_taken st (CInt.add (br_taken st) 1) in
    let new_addr := Z.land (CInt.sub (reg st 7) (CInt.shl offset 1)) MASK16 in
    Ok (set_reg st 7 new_addr)
  else Ok st.

Definition exec_BNE (instruction : Z) (st : state) : state :=
  let st := with_br_exec st (CInt.add (br_exec st) 1) in
  let offset := Z.land instruction 255 in
  let offset := shift_extend offset in
  let new_addr := CInt.add (reg st 7) (CInt.shl offset 1) in
  if negb (nonzero (cc_z st)) then
    let st := with_br_taken st (CInt.add (br_taken st) 1) in
    set_reg st 7 new_addr
  else st.

(** ** The fetch-decode-execute loop of [main] *)

(** The instruction families, in the order of the three [switch]es. *)
Inductive family :=
| FMOV | FCMP | FADD | FSUB
| FBR | FBEQ | FASL | FASR
| FSOB | FBNE.

(** [opcode = instruction >> 12], then [>> 6], then [>> 9]: the first
    [switch] with a matching [case] decides. *)
Definition decode (instruction : Z) : option family :=
  let opcode := Z.shiftr instruction 12 in
  if opcode =? MOV then Some FMOV
  else if opcode =? CMP then Some FCMP
  else if opcode =? ADD then Some FADD
  else if opcode =? SUB then Some FSUB
  else
    let opcode := Z.shiftr instruction 6 in
    if opcode =? BR then Some FBR
    else if opcode =? BEQ then Some FBEQ
    else if opcode =? ASL then Some FASL
    else if opcode =? ASR then Some FASR
    else
      let opcode := Z.shiftr instruction 9 in
      if opcode =? SOB then Some FSOB
      else if opcode =? BNE then Some FBNE
      else None.

(** What one turn of the [while] loop leaves behind. *)
Inductive outcome :=
| Running (st : state)                      (* reached [got_opcode] *)
| Halted (st : state)                       (* the halt word: [break] *)
| BadInstruction (report : Z) (st : state)  (* the printed PC, then exit(-1) *)
| Fault (f : fault).

(** Instruction fetch: the word at the PC, both counters, the PC advanced. *)
Definition fetch (st : state) : res (Z * state) :=
  w <- mem_read st (CInt.shr (reg st 7) 1) ;;
  let instruction := CInt.to_unsigned w in
  let st := with_instr_exec st (CInt.add (instr_exec st) 1) in
  let st := with_instr_fetch st (CInt.add (instr_fetch st) 1) in
  let st := set_reg st 7 (Z.land (CInt.add (reg st 7) 2) MASK16) in
  Ok (instruction, st).

Definition continue (r : res state) : outcome :=
  match r with
  | Ok st => Running st
  | Err f => Fault f
  end.

(** The operand fields of an instruction word.  [src] and [dst] are globals
    whose [addr] and [value] every [get_operand] overwrites before they are
    read, so they start each instruction at 0 here. *)
Definition src_of (instruction : Z) : addr_phrase :=
  mkAP (Z.land (Z.shiftr instruction 9) 7) (Z.land (Z.shiftr instruction 6) 7) 0 0.

Definition dst_of (instruction : Z) : addr_phrase :=
  mkAP (Z.land (Z.shiftr instruction 3) 7) (Z.land instruction 7) 0 0.

Definition execute (instruction : Z) (st : state) : outcome :=
  let src := src_of instruction in
  let dst := dst_of instruction in
  match decode instruction with
  | Some FMOV => continue (exec_MOV src dst st)
  | Some FCMP => continue (exec_CMP src dst st)
  | Some FADD => continue (exec_ADD src dst st)
  | Some FSUB => continue (exec_SUB src dst st)
  | Some FBR => Running (exec_BR instruction st)
  | Some FBEQ => Running (exec_BEQ instruction st)
  | Some FASL => continue (exec_ASL dst st)
  | Some FASR => continue (exec_ASR dst st)
  | Some FSOB => continue (exec_SOB instruction src st)
  | Some FBNE => Running (exec_BNE instruction st)
  | None => BadInstruction (CInt.sub (reg st 7) 2) st
  end.

Definition step (st : state) : outcome :=
  match fetch st with
  | Err f => Fault f
  | Ok (instruction, st) =>
      if instruction =? 0 then Halted st else execute instruction st
  end.

(** How a run of the whole program ends. *)
Inductive ending :=
| Exit (code : Z) (report : option Z) (st : state)
| Crashed (f : fault)
| Unfinished (st : state).

(** [while(!halt)], cut off after [fuel] instructions. *)
Fixpoint run (fuel : nat) (st : state) : ending :=
  match fuel with
  | O => Unfinished st
  | S fuel' =>
      match step st with
      | Running st' => run fuel' st'
      | Halted st' => Exit 0 None st'            (* return 0 *)
      | BadInstruction pc st' => Exit (-1) (Some pc) st'  (* exit(-1) *)
      | Fault f => Crashed f
      end
  end.

(** [main] on the words of the input stream. *)
Definition main (fuel : nat) (ws : list Z) : ending :=
  match load_program ws with
  | Ok st => run fuel st
  | Err f => Crashed f
  end.

(** ** The reference algorithms, in the words of the specification *)

Module Reference.

(** Sign extension of a [bits]-wide field to an integer. *)
Definition sign_extend (bits x : Z) : Z :=
  if Z.testbit x (bits - 1) then x - 2 ^ bits else x.

(** The sign bit of a 16-bit word. *)
Definition sign (x : Z) : bool := Z.testbit x 15.

(** The SUB flags (N, Z, V, C) for destination [dst] and source [src]:
    C is bit 16 of the unmasked difference, V is set when the operands'
    signs differ and the result's sign is the source's, N and Z come from
    the masked result. *)
Definition sub_flags (src dst : Z) : Z * Z * Z * Z :=
  let diff := dst - src in
  let result := diff mod 65536 in
  (Z.b2z (sign result),
   Z.b2z (result =? 0),
   Z.b2z (negb (Bool.eqb (sign src) (sign dst))
          && Bool.eqb (sign src) (sign result)),
   Z.b2z (Z.testbit diff 16)).

(** The SOB offset as a sign-extended 6-bit field. *)
Definition sob_offset_signed (instruction : Z) : Z :=
  sign_extend 6 (Z.land instruction 63).

End Reference.

(** The flags of a state as (N, Z, V, C). *)
Definition nzvc (st : state) : Z * Z * Z * Z :=
  (cc_n st, cc_z st, cc_v st, cc_c st).

(** Every register and every memory word is a 16-bit value. *)
Definition word16 (v : Z) : Prop := 0 <= v <= 65535.

Definition all_word16 (st : state) : Prop :=
  (forall r, 0 <= r < 8 -> word16 (reg st r)) /\
  (forall i, 0 <= i < MEM_SIZE -> word16 (mem st i)).

(** ** Predicates, programs and states of the statements below *)

(** MOV #5, R0; ADD #3, R0; halt -- the words 012700 5 062700 3 0. *)
Definition prog_mov_add : list Z := [5568; 5; 26048; 3; 0].

(** SOB R0, 0 -- the word 077000. *)
Definition prog_sob_zero : list Z := [32256].
(** BNE with the offset field 0200 -- the word 001200. *)
Definition prog_bne_back : list Z := [640].
(** MOV #0177776, R0; MOV @(R0)+, R1 -- the words 012700 177776 013001. *)
Definition prog_auto_inc_def : list Z := [5568; 65534; 5633].
(** MOV #0177774, R1; MOV #001477, (R1)+; MOV #2, R2; CMP R0, R0;
    SOB R2, 012: a BEQ with offset 077 is stored at 0177774 and reached with
    Z set -- the words 012701 177774 012721 001477 012702 2 020000 077212. *)
Definition prog_beq_top : list Z :=
  [5569; 65532; 5585; 831; 5570; 2; 8192; 32394].

(** The word 001600, whose low byte 0200 has bit 7 set. *)
Definition word_0200 : Z := 896.

(** CMP R0, R0; then the word 001600 -- the words 020000 001600. *)
Definition prog_cmp_0200 : list Z := [8192; word_0200].

(** CMP R0, R0; BEQ with offset 3 -- the words 020000 001403. *)
Definition prog_cmp_beq : list Z := [8192; 771].

(** The state at the start of the second instruction, with the Z flag [z]. *)
Definition state_at_2 (z : Z) : state :=
  with_cc (set_reg zero_state 7 2) 0 z 0 0.

(** The word [w] is the double-operand instruction [f] from register [s] to
    register [d], both in Register mode. *)
Definition reg_to_reg (f : family) (s d : Z) (w : Z) : Prop :=
  decode w = Some f /\ src_of w = mkAP REG s 0 0 /\ dst_of w = mkAP REG d 0 0.

(** ADD R1, R2 and SUB R3, R2 -- the words 060102 and 160302 -- with
    R1 = 0177777 and R2 = R3 = 2. *)
Definition state_add_sub : state :=
  with_reg (with_mem zero_state (upd (upd (fun _ => 0) 0 24642) 1 57538))
           (upd (upd (upd (fun _ => 0) 1 65535) 2 2) 3 2).





(** SOB R0, 1 -- the word 077001 -- at address 0 with R0 = 2. *)
Definition state_sob_loop : state :=
  with_reg (with_mem zero_state (upd (fun _ => 0) 0 32257))
           (upd (fun _ => 0) 0 2).

(** MOV #2, R0; BR with offset 075 -- the words 012700 2 000475 -- then 61
    zero words, then SOB R0, 077 -- the word 077077 -- at address 0200. *)
Definition prog_sob_far : list Z := [5568; 2; 317] ++ repeat 0 61 ++ [32319].

(** The value a shift instruction writes back, from the register it reads. *)
Definition shifted (f : family) (x : Z) : Z :=
  match f with
  | FASL => CInt.to_uint16 (CInt.shl x 1)
  | _ => CInt.to_uint16 (CInt.shr (CInt.shr (CInt.shl x 16) 16) 1)
  end.

(** The bit of the resolved operand that goes to the C flag. *)
Definition carry_bit (f : family) : Z :=
  match f with
  | FASL => 15
  | _ => 0
  end.

(** MOV #4, R1; ASL -(R1) -- the words 012701 4 006341. *)
Definition prog_asl_autodec : list Z := [5569; 4; 3297].

(** ASR R2 -- the word 006202 -- at address 0 with R2 = 0100001. *)
Definition state_asr : state :=
  with_reg (with_mem zero_state (upd (fun _ => 0) 0 3202))
           (upd (fun _ => 0) 2 32769).

(** MOV #0177776, R1; MOV #0100000, (R1)+; MOV #2, R2; SOB R2, 010: the
    illegal word 0100000 is stored at 0177776 and the SOB branches to it --
    the words 012701 177776 012721 100000 012702 2 077210. *)
Definition prog_bad_top : list Z := [5569; 65534; 5585; 32768; 5570; 2; 32392].

(** ** Further notions: loading, decoding, operand costs, invariants *)

(** The instruction family by the range of the instruction word. *)
Definition family_of_range (w : Z) : option family :=
  if (4096 <=? w) && (w <? 8192) then Some FMOV
  else if (8192 <=? w) && (w <? 12288) then Some FCMP
  else if (24576 <=? w) && (w <? 28672) then Some FADD
  else if (57344 <=? w) && (w <? 61440) then Some FSUB
  else if (256 <=? w) && (w <? 320) then Some FBR
  else if (768 <=? w) && (w <? 832) then Some FBEQ
  else if (3264 <=? w) && (w <? 3328) then Some FASL
  else if (3200 <=? w) && (w <? 3264) then Some FASR
  else if (32256 <=? w) && (w <? 32768) then Some FSOB
  else if (512 <=? w) && (w <? 1024) then Some FBNE
  else None.

(** The instruction words one operand resolution charges to [instr_fetch]:
    the immediate word of AutoIncrement on the PC and the displacement word
    of the two index modes. *)
Definition fetch_cost (p : addr_phrase) : Z :=
  if (ap_mode p =? AUTO_INC) && (ap_reg p =? 7) then 1
  else if (ap_mode p =? INDEX) || (ap_mode p =? INDEX_DEF) then 1
  else 0.

(** The data words one operand resolution charges to [words_read]. *)
Definition read_cost (p : addr_phrase) : Z :=
  if (ap_mode p =? REG) || (ap_mode p =? AUTO_INC) then 0
  else if (ap_mode p =? INDEX) || (ap_mode p =? INDEX_DEF) then 3
  else if (0 <=? ap_mode p) && (ap_mode p <=? 7) then 1
  else 0.

(** A counter that three more increments cannot overflow. *)
Definition counter_ok (c : Z) : Prop := 0 <= c <= CInt.int_max - 3.

(** The value of a 16-bit word read as a two's-complement number. *)
Definition signed16 (x : Z) : Z := if x <? 32768 then x else x - 65536.

(** A signed result that a 16-bit word can hold. *)
Definition fits16 (z : Z) : bool := (-32768 <=? z) && (z <=? 32767).

(** The word [w] is the single-operand instruction [f] on register [d] in
    Register mode. *)
Definition on_reg (f : family) (d : Z) (w : Z) : Prop :=
  decode w = Some f /\ dst_of w = mkAP REG d 0 0.

(** A condition code is 0 or 1. *)
Definition bit01 (v : Z) : Prop := v = 0 \/ v = 1.

Definition flags01 (st : state) : Prop :=
  bit01 (cc_n st) /\ bit01 (cc_z st) /\ bit01 (cc_v st) /\ bit01 (cc_c st).

(** The machine a turn of the loop leaves behind, when it leaves one. *)
Definition state_of (o : outcome) : option state :=
  match o with
  | Running st | Halted st | BadInstruction _ st => Some st
  | Fault _ => None
  end.

(** The words that store to memory: MOV with an AutoIncrement destination. *)
Definition stores (w : Z) : bool :=
  match decode w with
  | Some FMOV => ap_mode (dst_of w) =? 2
  | _ => false
  end.

(** The branch counters are plausible: taken does not exceed executed, and
    executed can still be incremented. *)
Definition branches_ok (st : state) : Prop :=
  0 <= br_taken st <= br_exec st /\ br_exec st < CInt.int_max.

(** The machine at the end of a run, when there is one. *)
Definition ending_state (e : ending) : option state :=
  match e with
  | Exit _ _ st | Unfinished st => Some st
  | Crashed _ => None
  end.

(** * Properties *)

(** ** Arithmetic facts *)

Lemma wrap_small (z : Z) :
  CInt.int_min <= z <= CInt.int_max -> CInt.wrap z = z.
Proof.
  unfold CInt.wrap, CInt.int_min, CInt.int_max. intros H.
  rewrite Z.mod_small by lia. lia.
Qed.

Lemma land_MASK16 (x : Z) : Z.land x MASK16 = x mod 65536.
Proof.
  change MASK16 with (Z.ones 16). rewrite Z.land_ones by lia. reflexivity.
Qed.

Lemma land_pow2 (x n : Z) :
  0 <= n -> Z.land x (2 ^ n) = if Z.testbit x n then 2 ^ n else 0.
Proof.
  intros Hn. apply Z.bits_inj'. intros m Hm.
  rewrite Z.land_spec, Z.pow2_bits_eqb by lia.
  destruct (Z.eqb_spec n m) as [->|Hne].
  - destruct (Z.testbit x m) eqn:E; rewrite ?Z.pow2_bits_eqb, ?Z.eqb_refl,
      ?Z.bits_0 by lia; reflexivity.
  - rewrite andb_false_r.
    destruct (Z.testbit x n); rewrite ?Z.pow2_bits_eqb, ?Z.bits_0 by lia;
      [symmetry; apply Z.eqb_neq; assumption | reflexivity].
Qed.

Lemma sign_flag (x : Z) :
  flag (nonzero (Z.land x SIGN16)) = Z.b2z (Z.testbit x 15).
Proof.
  change SIGN16 with (2 ^ 15). rewrite land_pow2 by lia.
  destruct (Z.testbit x 15); reflexivity.
Qed.

Lemma low_flag (x : Z) :
  flag (nonzero (Z.land x 1)) = Z.b2z (Z.testbit x 0).
Proof.
  change 1 with (2 ^ 0) at 1. rewrite land_pow2 by lia.
  destruct (Z.testbit x 0); reflexivity.
Qed.

Lemma carry_flag (x : Z) :
  CInt.shr (Z.land x BIT16) 16 = Z.b2z (Z.testbit x 16).
Proof.
  change BIT16 with (2 ^ 16). rewrite land_pow2 by lia.
  destruct (Z.testbit x 16); reflexivity.
Qed.

Lemma sign_eqb (x y : Z) :
  (Z.land x SIGN16 =? Z.land y SIGN16)
  = Bool.eqb (Z.testbit x 15) (Z.testbit y 15).
Proof.
  change SIGN16 with (2 ^ 15). rewrite !land_pow2 by lia.
  destruct (Z.testbit x 15), (Z.testbit y 15); reflexivity.
Qed.

(** The shift pair of the source extends from bit 7 of the byte. *)
Lemma shift_extend_byte (x : Z) :
  0 <= x < 256 -> shift_extend x = Reference.sign_extend 8 x.
Proof.
  intros Hx. unfold shift_extend, Reference.sign_extend, CInt.shr, CInt.shl.
  rewrite Z.shiftl_mul_pow2, Z.shiftr_div_pow2 by lia.
  change (8 - 1) with 7.
  assert (Hbit : Z.b2z (Z.testbit x 7) = (x / 128) mod 2)
    by (apply Z.testbit_spec'; lia).
  change (2 ^ 24) with 16777216. change (2 ^ 8) with 256. unfold CInt.wrap.
  destruct (Z.ltb_spec x 128) as [Hlt|Hge].
  - replace (x / 128) with 0 in Hbit by (symmetry; apply Z.div_small; lia).
    destruct (Z.testbit x 7); [discriminate|].
    rewrite Z.mod_small by lia.
    replace (x * 16777216 + 2147483648 - 2147483648) with (x * 16777216) by lia.
    rewrite Z.div_mul by lia. reflexivity.
  - replace (x / 128) with 1 in Hbit
      by (apply Z.div_unique with (r := x - 128); lia).
    destruct (Z.testbit x 7); [|discriminate].
    replace ((x * 16777216 + 2147483648) mod 4294967296)
      with (x * 16777216 + 2147483648 - 4294967296)
      by (apply Z.mod_unique with (q := 1); lia).
    replace (x * 16777216 + 2147483648 - 4294967296 - 2147483648)
      with ((x - 256) * 16777216) by lia.
    rewrite Z.div_mul by lia. reflexivity.
Qed.

(** On a 6-bit field the shift pair changes nothing. *)
Lemma shift_extend_six_bits (w : Z) :
  shift_extend (Z.land w 63) = Z.land w 63.
Proof.
  assert (H : 0 <= Z.land w 63 < 64).
  { change 63 with (Z.ones 6). rewrite Z.land_ones by lia.
    apply Z.mod_pos_bound. reflexivity. }
  rewrite shift_extend_byte by lia. unfold Reference.sign_extend.
  change (8 - 1) with 7.
  replace (Z.testbit (Z.land w 63) 7) with false; [reflexivity|].
  symmetry. rewrite Z.land_spec. change 63 with (Z.ones 6).
  rewrite (Z.ones_spec_high 6 7) by lia. apply andb_false_r.
Qed.

Lemma low_byte_range (w : Z) : 0 <= Z.land w 255 < 256.
Proof.
  change 255 with (Z.ones 8). rewrite Z.land_ones by lia.
  apply Z.mod_pos_bound. reflexivity.
Qed.

(** ** The loop *)

Lemma decode_nonzero (w : Z) (f : family) :
  decode w = Some f -> (w =? 0) = false.
Proof.
  intros H. destruct (Z.eqb_spec w 0) as [->|]; [discriminate H | reflexivity].
Qed.

(** A decoded instruction goes to its body with the state left by the fetch. *)
Lemma step_execute (st st0 : state) (w : Z) (f : family) :
  fetch st = Ok (w, st0) -> decode w = Some f -> step st = execute w st0.
Proof.
  intros Hf Hd. unfold step. rewrite Hf, (decode_nonzero _ _ Hd). reflexivity.
Qed.

(** What the fetch changes: the two counters and the PC. *)
Lemma fetch_inv (st st0 : state) (w : Z) :
  fetch st = Ok (w, st0) ->
  in_mem (CInt.shr (reg st 7) 1) = true /\
  w = CInt.to_unsigned (mem st (CInt.shr (reg st 7) 1)) /\
  st0 = set_reg (with_instr_fetch (with_instr_exec st
                   (CInt.add (instr_exec st) 1))
                   (CInt.add (instr_fetch st) 1))
                7 (Z.land (CInt.add (reg st 7) 2) MASK16).
Proof.
  unfold fetch, mem_read. destruct (in_mem (CInt.shr (reg st 7) 1)); simpl.
  - intros H. injection H as <- <-. repeat split.
  - discriminate.
Qed.

Lemma fetch_pc_range (st st0 : state) (w : Z) :
  fetch st = Ok (w, st0) -> 0 <= reg st0 7 <= 65535.
Proof.
  intros H. apply fetch_inv in H as (_ & _ & ->).
  unfold set_reg, with_reg, upd; simpl. rewrite land_MASK16.
  pose proof (Z.mod_pos_bound (CInt.add (reg st 7) 2) 65536). lia.
Qed.

(** More fuel does not change how a finished run ended. *)
Lemma run_more (n k : nat) (st : state) :
  (forall s, run n st <> Unfinished s) -> run (n + k) st = run n st.
Proof.
  revert st. induction n as [|n IH]; intros st H.
  - exfalso. apply (H st). reflexivity.
  - simpl in *. destruct (step st); try reflexivity. apply IH, H.
Qed.

Lemma main_more (n k : nat) (ws : list Z) :
  (forall s, main n ws <> Unfinished s) -> main (n + k) ws = main n ws.
Proof.
  unfold main. destruct (load_program ws); [apply run_more | reflexivity].
Qed.

(** ** The scenario programs *)

Lemma prog_mov_add_ends (k : nat) :
  exists st, main (3 + k) prog_mov_add = Exit 0 None st /\
             reg st 0 = 8 /\ instr_exec st = 3 /\ instr_fetch st = 5 /\
             br_exec st = 0 /\ br_taken st = 0.
Proof.
  rewrite main_more by (intros s; vm_compute; discriminate).
  eexists. split; [vm_compute; reflexivity|]. vm_compute. repeat split.
Qed.

Lemma prog_empty_ends (k : nat) :
  exists st, main (1 + k) [] = Exit 0 None st /\
             instr_exec st = 1 /\ instr_fetch st = 1 /\
             br_exec st = 0 /\ br_taken st = 0.
Proof.
  rewrite main_more by (intros s; vm_compute; discriminate).
  eexists. split; [vm_compute; reflexivity|]. vm_compute. repeat split.
Qed.

(** C2, amended: the halt word is counted as an executed instruction.  The
    program MOV #5,R0; ADD #3,R0; halt ends, for every fuel of at least three
    instructions, with exit code 0, R0 = 8, three instructions executed and
    no branch executed or taken; the empty input ends on the all-zero first
    word with one instruction executed. *)
Theorem C2_halt_is_counted (k : nat) :
  (exists st, main (3 + k) prog_mov_add = Exit 0 None st /\
              reg st 0 = 8 /\ instr_exec st = 3 /\
              br_exec st = 0 /\ br_taken st = 0) /\
  (exists st, main (1 + k) [] = Exit 0 None st /\ instr_exec st = 1).
Proof.
  split.
  - destruct (prog_mov_add_ends k) as (st & H & H0 & H1 & _ & H2 & H3).
    exists st. auto.
  - destruct (prog_empty_ends k) as (st & H & H1 & _).
    exists st. auto.
Qed.

(** C2 as stated fails: no run of the program MOV #5,R0; ADD #3,R0; halt
    ends with two instructions executed, and no run of the empty input ends
    with zero instructions executed. *)
Lemma C2_counterexample :
  ~ (exists n st, main n prog_mov_add = Exit 0 None st /\ instr_exec st = 2)
  /\ ~ (exists n st, main n [] = Exit 0 None st /\ instr_exec st = 0).
Proof.
  split.
  - intros (n & st & H & He).
    destruct n as [|[|[|n]]]; try (vm_compute in H; discriminate H).
    destruct (prog_mov_add_ends n) as (st' & H' & _ & He' & _).
    change (S (S (S n))) with (3 + n)%nat in H. rewrite H' in H.
    injection H as <-. lia.
  - intros (n & st & H & He).
    destruct n as [|n]; try (vm_compute in H; discriminate H).
    destruct (prog_empty_ends n) as (st' & H' & He' & _).
    change (S n) with (1 + n)%nat in H. rewrite H' in H.
    injection H as <-. lia.
Qed.

(** ** The 16-bit invariant *)

Lemma loaded_word16 (ws : list Z) (st : state) :
  load_program ws = Ok st -> Forall word16 ws -> all_word16 st.
Proof.
  unfold load_program.
  assert (G : forall ws i s s', load_from ws i s = Ok s' ->
              Forall word16 ws -> all_word16 s -> all_word16 s').
  { clear. induction ws as [|k ws IH]; simpl; intros i s s' H Hw Hs.
    - injection H as <-. exact Hs.
    - unfold mem_write in H. destruct (in_mem i); simpl in H; [|discriminate].
      inversion Hw as [|? ? Hk Hws]; subst.
      apply (IH _ _ _ H Hws). destruct Hs as [Hr Hm]. split; simpl.
      + exact Hr.
      + intros j Hj. unfold upd. destruct (j =? i); [exact Hk | apply Hm, Hj]. }
  intros H Hw. apply (G _ _ _ _ H Hw).
  split; intros; simpl; unfold word16; lia.
Qed.

(** C1 fails on the code: four writes are not reduced modulo 65536.  From a
    loaded state whose registers and memory words are all 16-bit values, one
    SOB on a zero register leaves the register at -1 and one taken BNE with a
    negative offset leaves the PC at -254; an AutoIncrementDeferred operand
    on a register holding 0177776 leaves it at 65536; a taken BEQ fetched at
    0177774 leaves the PC at 65660. *)
Theorem C1_unmasked_writes :
  (exists st0 st1, load_program prog_sob_zero = Ok st0 /\ all_word16 st0 /\
                   step st0 = Running st1 /\ reg st1 0 = -1) /\
  (exists st0 st1, load_program prog_bne_back = Ok st0 /\ all_word16 st0 /\
                   step st0 = Running st1 /\ reg st1 7 = -254) /\
  (exists st, main 2 prog_auto_inc_def = Unfinished st /\ reg st 0 = 65536) /\
  (exists st, main 6 prog_beq_top = Unfinished st /\ reg st 7 = 65660).
Proof.
  repeat split.
  - destruct (load_program prog_sob_zero) as [st0|] eqn:E;
      [|vm_compute in E; discriminate E].
    exists st0. eexists. split; [reflexivity|]. split.
    + apply (loaded_word16 _ _ E). unfold prog_sob_zero, word16.
      repeat constructor; lia.
    + vm_compute in E. injection E as <-. split; vm_compute; reflexivity.
  - destruct (load_program prog_bne_back) as [st0|] eqn:E;
      [|vm_compute in E; discriminate E].
    exists st0. eexists. split; [reflexivity|]. split.
    + apply (loaded_word16 _ _ E). unfold prog_bne_back, word16.
      repeat constructor; lia.
    + vm_compute in E. injection E as <-. split; vm_compute; reflexivity.
  - eexists. split; vm_compute; reflexivity.
  - eexists. split; vm_compute; reflexivity.
Qed.

(** ** Branch offsets *)

Ltac unfold_state :=
  cbn [reg mem cc_n cc_z cc_v cc_c instr_exec instr_fetch words_read
       words_written br_exec br_taken set_reg with_reg with_mem with_cc
       with_instr_exec with_instr_fetch with_words_read with_words_written
       with_br_exec with_br_taken ap_mode ap_reg ap_addr ap_value] in *.

Lemma upd_same (f : Z -> Z) (k v : Z) : upd f k v k = v.
Proof. unfold upd. rewrite Z.eqb_refl. reflexivity. Qed.

Lemma upd_other (f : Z -> Z) (k v j : Z) : j <> k -> upd f k v j = f j.
Proof. unfold upd. intros H. apply Z.eqb_neq in H. rewrite H. reflexivity. Qed.

Lemma shl1_small (x : Z) : -65536 <= x <= 65536 -> CInt.shl x 1 = 2 * x.
Proof.
  intros H. unfold CInt.shl. rewrite Z.shiftl_mul_pow2 by lia.
  change (2 ^ 1) with 2. rewrite wrap_small;
    unfold CInt.int_min, CInt.int_max; lia.
Qed.

Lemma add_small (a b : Z) :
  -1000000 <= a <= 1000000 -> -1000000 <= b <= 1000000 -> CInt.add a b = a + b.
Proof.
  intros Ha Hb. unfold CInt.add. apply wrap_small.
  unfold CInt.int_min, CInt.int_max. lia.
Qed.

(** Below INT_MAX the C increment of a counter adds exactly one. *)
Lemma increment_exact (c : Z) :
  CInt.int_min <= c < CInt.int_max -> CInt.add c 1 = c + 1.
Proof.
  intros H. unfold CInt.add. apply wrap_small. lia.
Qed.

Lemma sub_small (a b : Z) :
  -1000000 <= a <= 1000000 -> -1000000 <= b <= 1000000 -> CInt.sub a b = a - b.
Proof.
  intros Ha Hb. unfold CInt.sub. apply wrap_small.
  unfold CInt.int_min, CInt.int_max. lia.
Qed.

Lemma sign_extend_byte_range (x : Z) :
  0 <= x < 256 -> -128 <= Reference.sign_extend 8 x <= 127.
Proof.
  intros Hx. unfold Reference.sign_extend. change (8 - 1) with 7.
  change (2 ^ 8) with 256.
  pose proof (Z.testbit_spec' x 7 ltac:(lia)) as Hbit.
  change (2 ^ 7) with 128 in Hbit.
  destruct (Z.ltb_spec x 128) as [Hlt|Hge].
  - replace (x / 128) with 0 in Hbit by (symmetry; apply Z.div_small; lia).
    destruct (Z.testbit x 7); [discriminate | lia].
  - replace (x / 128) with 1 in Hbit
      by (apply Z.div_unique with (r := x - 128); lia).
    destruct (Z.testbit x 7); [lia | discriminate].
Qed.

Lemma testbit7_low_byte (w : Z) :
  Z.testbit (Z.land w 255) 7 = Z.testbit w 7.
Proof.
  rewrite Z.land_spec. change 255 with (Z.ones 8).
  rewrite (Z.ones_spec_low 8 7) by lia. apply andb_true_r.
Qed.

(** The three case bodies on an arbitrary word: BEQ adds twice its unextended
    low byte to the PC when Z is set; BNE (when Z is clear) and BR (always)
    add twice the sign-extended low byte; on a word with bit 7 set the taken
    BEQ body and the taken BNE body leave different PCs.  Which words reach
    which body is settled by [decode], below. *)
Lemma branch_bodies (w : Z) (st : state) :
  0 <= reg st 7 <= 65535 ->
  reg (exec_BEQ w st) 7
  = (if nonzero (cc_z st) then reg st 7 + 2 * Z.land w 255 else reg st 7) /\
  reg (exec_BNE w st) 7
  = (if nonzero (cc_z st) then reg st 7
     else reg st 7 + 2 * Reference.sign_extend 8 (Z.land w 255)) /\
  reg (exec_BR w st) 7
  = (reg st 7 + 2 * Reference.sign_extend 8 (Z.land w 255)) mod 65536 /\
  (Z.testbit w 7 = true ->
   forall st', reg st' 7 = reg st 7 ->
               nonzero (cc_z st) = true -> nonzero (cc_z st') = false ->
               reg (exec_BEQ w st) 7 <> reg (exec_BNE w st') 7).
Proof.
  intros Hpc.
  pose proof (low_byte_range w) as Hb.
  pose proof (sign_extend_byte_range _ Hb) as Hs.
  assert (Hbeq : forall s, 0 <= reg s 7 <= 65535 ->
            reg (exec_BEQ w s) 7
            = if nonzero (cc_z s) then reg s 7 + 2 * Z.land w 255 else reg s 7).
  { intros s Hr. unfold exec_BEQ. unfold_state.
    destruct (nonzero (cc_z s)); unfold_state; [|reflexivity].
    rewrite upd_same, shl1_small, add_small by lia. reflexivity. }
  assert (Hbne : forall s, 0 <= reg s 7 <= 65535 ->
            reg (exec_BNE w s) 7
            = if nonzero (cc_z s) then reg s 7
              else reg s 7 + 2 * Reference.sign_extend 8 (Z.land w 255)).
  { intros s Hr. unfold exec_BNE. unfold_state.
    destruct (nonzero (cc_z s)); unfold_state; [reflexivity|].
    cbn [negb]. unfold_state.
    rewrite upd_same, shift_extend_byte, shl1_small, add_small by lia.
    reflexivity. }
  split; [apply Hbeq, Hpc|]. split; [apply Hbne, Hpc|]. split.
  - unfold exec_BR. unfold_state.
    rewrite upd_same, shift_extend_byte, shl1_small, add_small, land_MASK16
      by lia.
    reflexivity.
  - intros Hbit st' Hpc' Hz Hz'.
    rewrite Hbeq, Hbne, Hz, Hz', Hpc' by lia.
    unfold Reference.sign_extend. change (8 - 1) with 7.
    rewrite testbit7_low_byte, Hbit. change (2 ^ 8) with 256. lia.
Qed.

(** The bodies on the word 001600 after a fetch at 0: the BEQ body with Z set
    gives 0402, the BNE body with Z clear gives -0376. *)
Lemma branch_bodies_at_0200 :
  reg (exec_BEQ word_0200 (state_at_2 1)) 7 = 2 + 2 * 128 /\
  reg (exec_BNE word_0200 (state_at_2 0)) 7 = 2 + 2 * -128.
Proof.
  assert (Hpc : forall z, 0 <= reg (state_at_2 z) 7 <= 65535)
    by (intros z; cbn; lia).
  destruct (branch_bodies word_0200 (state_at_2 1) (Hpc 1)) as (Hbeq & _).
  destruct (branch_bodies word_0200 (state_at_2 0) (Hpc 0)) as (_ & Hbne & _).
  split; [exact Hbeq | exact Hbne].
Qed.

(** In the loop the BEQ body only receives words of the form 0014xx, whose
    offset field is below 0100; the words 0016xx and 0017xx go to BNE. *)
Lemma decode_BEQ_offset (w : Z) :
  decode w = Some FBEQ -> Z.shiftr w 6 = 12 /\ Z.land w 255 < 64.
Proof.
  unfold decode, MOV, CMP, ADD, SUB, BR, BEQ, ASL, ASR, SOB, BNE. intros H.
  repeat match type of H with
         | (if ?c then _ else _) = _ => destruct c eqn:?; try discriminate H
         end.
  assert (E : Z.shiftr w 6 = 12) by (apply Z.eqb_eq; assumption).
  split; [exact E|].
  rewrite Z.shiftr_div_pow2 in E by lia. change (2 ^ 6) with 64 in E.
  change 255 with (Z.ones 8). rewrite Z.land_ones by lia.
  change (2 ^ 8) with 256.
  pose proof (Z.div_mod w 64 ltac:(lia)).
  pose proof (Z.mod_pos_bound w 64 ltac:(lia)).
  assert (w mod 256 = w - 768)
    by (symmetry; apply Z.mod_unique with (q := 3); lia).
  lia.
Qed.

(** Likewise the BR body only receives words of the form 0004xx. *)
Lemma decode_BR_offset (w : Z) :
  decode w = Some FBR -> Z.shiftr w 6 = 4 /\ Z.land w 255 < 64.
Proof.
  unfold decode, MOV, CMP, ADD, SUB, BR, BEQ, ASL, ASR, SOB, BNE. intros H.
  repeat match type of H with
         | (if ?c then _ else _) = _ => destruct c eqn:?; try discriminate H
         end.
  assert (E : Z.shiftr w 6 = 4) by (apply Z.eqb_eq; assumption).
  split; [exact E|].
  rewrite Z.shiftr_div_pow2 in E by lia. change (2 ^ 6) with 64 in E.
  change 255 with (Z.ones 8). rewrite Z.land_ones by lia.
  change (2 ^ 8) with 256.
  pose proof (Z.div_mod w 64 ltac:(lia)).
  pose proof (Z.mod_pos_bound w 64 ltac:(lia)).
  assert (w mod 256 = w - 256)
    by (symmetry; apply Z.mod_unique with (q := 1); lia).
  lia.
Qed.

(** An offset field below 0100 has bit 7 clear and is its own sign
    extension. *)
Lemma small_offset_not_extended (x : Z) :
  0 <= x < 64 ->
  Z.testbit x 7 = false /\ Reference.sign_extend 8 x = x.
Proof.
  intros Hx.
  assert (Hbit : Z.testbit x 7 = false).
  { pose proof (Z.testbit_spec' x 7 ltac:(lia)) as Hb.
    change (2 ^ 7) with 128 in Hb.
    replace (x / 128) with 0 in Hb by (symmetry; apply Z.div_small; lia).
    destruct (Z.testbit x 7); [discriminate Hb | reflexivity]. }
  split; [exact Hbit|].
  unfold Reference.sign_extend. change (8 - 1) with 7. rewrite Hbit.
  reflexivity.
Qed.

Lemma fetch_keeps_z (st st0 : state) (w : Z) :
  fetch st = Ok (w, st0) -> cc_z st0 = cc_z st.
Proof.
  intros H. apply fetch_inv in H as (_ & _ & ->). reflexivity.
Qed.

(** C3: in the loop, a word executed as BEQ has an offset field of 0..077,
    which no sign extension would change, and moves the advanced PC by twice
    that field only when Z is set; a word executed as BR has such a field too
    and moves the PC by twice it, modulo 65536, unconditionally; a word
    executed as BNE moves the PC by twice its sign-extended low byte only when
    Z is clear; a word with bit 7 set is executed neither as BEQ nor as BR. *)
Theorem C3_branch_offsets_in_the_loop (st st0 : state) (w : Z) :
  fetch st = Ok (w, st0) ->
  (decode w = Some FBEQ ->
   0 <= Z.land w 255 <= 63 /\
   Reference.sign_extend 8 (Z.land w 255) = Z.land w 255 /\
   exists st',
     step st = Running st' /\
     reg st' 7 = (if nonzero (cc_z st) then reg st0 7 + 2 * Z.land w 255
                  else reg st0 7)) /\
  (decode w = Some FBR ->
   0 <= Z.land w 255 <= 63 /\
   Reference.sign_extend 8 (Z.land w 255) = Z.land w 255 /\
   exists st',
     step st = Running st' /\
     reg st' 7 = (reg st0 7 + 2 * Z.land w 255) mod 65536) /\
  (decode w = Some FBNE ->
   exists st',
     step st = Running st' /\
     reg st' 7 = (if nonzero (cc_z st) then reg st0 7
                  else reg st0 7
                       + 2 * Reference.sign_extend 8 (Z.land w 255))) /\
  (Z.testbit w 7 = true -> decode w <> Some FBEQ /\ decode w <> Some FBR).
Proof.
  intros Hf.
  pose proof (fetch_pc_range _ _ _ Hf) as Hpc.
  pose proof (fetch_keeps_z _ _ _ Hf) as Hz.
  destruct (branch_bodies w st0 Hpc) as (Hbeq & Hbne & Hbr & _).
  pose proof (low_byte_range w) as Hb.
  split; [|split; [|split]].
  - intros Hd. destruct (decode_BEQ_offset _ Hd) as (_ & Hlt).
    destruct (small_offset_not_extended (Z.land w 255) ltac:(lia))
      as (_ & Hse).
    split; [lia|]. split; [exact Hse|].
    rewrite (step_execute _ _ _ _ Hf Hd). unfold execute. rewrite Hd.
    eexists. split; [reflexivity|]. rewrite Hbeq, Hz. reflexivity.
  - intros Hd. destruct (decode_BR_offset _ Hd) as (_ & Hlt).
    destruct (small_offset_not_extended (Z.land w 255) ltac:(lia))
      as (_ & Hse).
    split; [lia|]. split; [exact Hse|].
    rewrite (step_execute _ _ _ _ Hf Hd). unfold execute. rewrite Hd.
    eexists. split; [reflexivity|]. rewrite Hbr, Hse. reflexivity.
  - intros Hd.
    rewrite (step_execute _ _ _ _ Hf Hd). unfold execute. rewrite Hd.
    eexists. split; [reflexivity|]. rewrite Hbne, Hz. reflexivity.
  - intros Hbit. split; intros Hd.
    + destruct (decode_BEQ_offset _ Hd) as (_ & Hlt).
      destruct (small_offset_not_extended (Z.land w 255) ltac:(lia))
        as (H7 & _).
      rewrite testbit7_low_byte in H7. congruence.
    + destruct (decode_BR_offset _ Hd) as (_ & Hlt).
      destruct (small_offset_not_extended (Z.land w 255) ltac:(lia))
        as (H7 & _).
      rewrite testbit7_low_byte in H7. congruence.
Qed.

(** CMP R0, R0 sets Z; the BEQ 001403 at 2 then goes from 4 to 012. *)
Lemma C3_witness :
  exists st st0 st',
    main 1 prog_cmp_beq = Unfinished st /\
    fetch st = Ok (771, st0) /\ decode 771 = Some FBEQ /\
    step st = Running st' /\
    nonzero (cc_z st) = true /\ reg st0 7 = 4 /\ reg st' 7 = 4 + 2 * 3.
Proof.
  assert (Hrun : exists st st0,
             main 1 prog_cmp_beq = Unfinished st /\
             fetch st = Ok (771, st0) /\
             nonzero (cc_z st) = true /\ reg st0 7 = 4).
  { eexists. eexists. split; [vm_compute; reflexivity|].
    split; [vm_compute; reflexivity|]. split; reflexivity. }
  destruct Hrun as (st & st0 & Hm & Hf & Hz & Hpc).
  destruct (C3_branch_offsets_in_the_loop st st0 771 Hf) as (Hbeq & _).
  destruct (Hbeq eq_refl) as (_ & _ & st' & Hs & Ht).
  exists st, st0, st'.
  split; [exact Hm|]. split; [exact Hf|]. split; [reflexivity|].
  split; [exact Hs|]. split; [exact Hz|]. split; [exact Hpc|].
  rewrite Ht, Hz, Hpc. reflexivity.
Defined.

(** C3 as stated fails for an offset field with bit 7 set: after CMP R0, R0
    has set Z, the word 001600 at 2 (offset field 0200) is executed as BNE
    and not taken, so the PC stays at 4, while an unsigned offset added on Z
    set would give 4 + 2 * 128 = 0404, the PC the BEQ body leaves. *)
Lemma C3_counterexample :
  exists st st0 st',
    main 1 prog_cmp_0200 = Unfinished st /\
    fetch st = Ok (word_0200, st0) /\
    Z.testbit word_0200 7 = true /\ Z.land word_0200 255 = 128 /\
    nonzero (cc_z st) = true /\
    decode word_0200 = Some FBNE /\
    step st = Running st' /\
    reg st0 7 = 4 /\ reg st' 7 = 4 /\
    reg (exec_BEQ word_0200 st0) 7 = 260 /\
    reg st' 7 <> reg st0 7 + 2 * Z.land word_0200 255.
Proof.
  eexists. eexists. eexists.
  split; [vm_compute; reflexivity|].
  split; [vm_compute; reflexivity|].
  split; [reflexivity|]. split; [reflexivity|]. split; [reflexivity|].
  split; [reflexivity|].
  split; [vm_compute; reflexivity|].
  vm_compute. repeat split; discriminate.
Qed.

(** ** ADD and SUB between registers *)


Lemma exec_ADD_REG (s d : Z) (st : state) :
  exec_ADD (mkAP REG s 0 0) (mkAP REG d 0 0) st
  = let sv := reg st s in
    let dv := reg st d in
    let result := Z.land (CInt.add sv dv) MASK16 in
    Ok (set_reg
          (with_cc st
             (flag (nonzero (Z.land result SIGN16)))
             (flag (result =? 0))
             (flag ((Z.land sv SIGN16 =? Z.land dv SIGN16)
                    && negb (Z.land sv SIGN16 =? Z.land result SIGN16)))
             (flag (result <? CInt.add sv dv)))
          d result).
Proof. reflexivity. Qed.

Lemma exec_SUB_REG (s d : Z) (st : state) :
  exec_SUB (mkAP REG s 0 0) (mkAP REG d 0 0) st
  = let sv := reg st s in
    let dv := reg st d in
    let diff := CInt.sub dv sv in
    let result := Z.land diff MASK16 in
    Ok (set_reg
          (with_cc st
             (flag (nonzero (Z.land result SIGN16)))
             (flag (result =? 0))
             (flag (negb (Z.land sv SIGN16 =? Z.land dv SIGN16)
                    && (Z.land sv SIGN16 =? Z.land result SIGN16)))
             (CInt.shr (Z.land diff BIT16) 16))
          d result).
Proof. reflexivity. Qed.

(** The flags the SUB body computes are those of the reference algorithm. *)
Lemma sub_flags_reference (sv dv : Z) :
  0 <= sv <= 65535 -> 0 <= dv <= 65535 ->
  (flag (nonzero (Z.land (Z.land (CInt.sub dv sv) MASK16) SIGN16)),
   flag (Z.land (CInt.sub dv sv) MASK16 =? 0),
   flag (negb (Z.land sv SIGN16 =? Z.land dv SIGN16)
         && (Z.land sv SIGN16 =? Z.land (Z.land (CInt.sub dv sv) MASK16) SIGN16)),
   CInt.shr (Z.land (CInt.sub dv sv) BIT16) 16)
  = Reference.sub_flags sv dv.
Proof.
  intros Hs Hd. rewrite sub_small by lia.
  rewrite sign_flag, !sign_eqb, carry_flag, land_MASK16.
  reflexivity.
Qed.

Lemma fetch_frame (st st0 : state) (w : Z) :
  fetch st = Ok (w, st0) ->
  (forall r, r <> 7 -> reg st0 r = reg st r) /\
  mem st0 = mem st /\ nzvc st0 = nzvc st /\
  br_exec st0 = br_exec st /\ br_taken st0 = br_taken st /\
  words_written st0 = words_written st.
Proof.
  intros H. apply fetch_inv in H as (_ & _ & ->). unfold_state.
  repeat split. intros r Hr. apply upd_other, Hr.
Qed.

(** Below the top of memory the fetch leaves the PC two bytes further. *)
Lemma fetch_advances (st st0 : state) (w : Z) :
  fetch st = Ok (w, st0) -> reg st 7 <= 65533 ->
  reg st0 7 = reg st 7 + 2 /\ 0 <= reg st 7.
Proof.
  intros H Hpc. apply fetch_inv in H as (Hin & _ & ->).
  unfold in_mem, CInt.shr in Hin. rewrite Z.shiftr_div_pow2 in Hin by lia.
  change (2 ^ 1) with 2 in Hin.
  assert (H0 : 0 <= reg st 7).
  { destruct (Z.leb_spec 0 (reg st 7 / 2)) as [Hle|]; [|discriminate Hin].
    destruct (Z.le_gt_cases 0 (reg st 7)) as [|Hneg]; [assumption|].
    pose proof (Z.div_lt_upper_bound (reg st 7) 2 0 ltac:(lia) ltac:(lia)).
    lia. }
  unfold_state. rewrite upd_same, add_small, land_MASK16, Z.mod_small by lia.
  split; [reflexivity | assumption].
Qed.

Lemma fetch_at (st : state) :
  0 <= reg st 7 <= 65535 ->
  exists st0, fetch st
              = Ok (CInt.to_unsigned (mem st (CInt.shr (reg st 7) 1)), st0).
Proof.
  intros H. unfold fetch, mem_read.
  replace (in_mem (CInt.shr (reg st 7) 1)) with true; [eexists; reflexivity|].
  symmetry. unfold in_mem, CInt.shr, MEM_SIZE.
  rewrite Z.shiftr_div_pow2 by lia. change (2 ^ 1) with 2.
  pose proof (Z.div_pos (reg st 7) 2 ltac:(lia) ltac:(lia)).
  pose proof (Z.div_lt_upper_bound (reg st 7) 2 32768 ltac:(lia) ltac:(lia)).
  apply andb_true_intro. split; [apply Z.leb_le | apply Z.ltb_lt]; lia.
Qed.

(** C4: ADD of a register holding [a] into a register holding [b], then SUB
    of a register holding [b] from the sum, leaves [a] in the destination,
    and the flags after the SUB are those of the reference SUB algorithm on
    the sum and [b]. *)
Theorem C4_add_then_sub_recovers (st st0 : state) (w1 w2 i j k a b : Z) :
  0 <= a <= 65535 -> 0 <= b <= 65535 ->
  fetch st = Ok (w1, st0) ->
  CInt.to_unsigned (mem st (CInt.shr (reg st0 7) 1)) = w2 ->
  reg_to_reg FADD i j w1 -> reg_to_reg FSUB k j w2 ->
  i <> 7 -> j <> 7 -> k <> 7 -> k <> j ->
  reg st i = a -> reg st j = b -> reg st k = b ->
  exists st1 st2,
    step st = Running st1 /\ step st1 = Running st2 /\
    reg st1 j = (a + b) mod 65536 /\
    reg st2 j = a /\
    nzvc st2 = Reference.sub_flags b ((a + b) mod 65536).
Proof.
  intros Ha Hb Hf Hw2 (Hd1 & Hs1 & Ht1) (Hd2 & Hs2 & Ht2)
         Hi Hj Hk Hkj Hri Hrj Hrk.
  destruct (fetch_frame _ _ _ Hf) as (Hregs & Hmem & _).
  pose proof (fetch_pc_range _ _ _ Hf) as Hpc0.
  pose proof (Z.mod_pos_bound (a + b) 65536 ltac:(lia)) as Hsum.
  (* the ADD *)
  pose proof (step_execute _ _ _ _ Hf Hd1) as E1.
  unfold execute in E1. rewrite Hd1, Hs1, Ht1, exec_ADD_REG in E1.
  cbv zeta in E1. rewrite (Hregs i Hi), (Hregs j Hj), Hri, Hrj in E1.
  rewrite add_small, land_MASK16 in E1 by lia.
  cbn [continue] in E1.
  match type of E1 with _ = Running ?s => set (st1 := s) in * end.
  assert (R1 : forall r, r <> j -> reg st1 r = reg st0 r).
  { intros r Hr. subst st1. unfold_state. apply upd_other, Hr. }
  assert (Rj : reg st1 j = (a + b) mod 65536).
  { subst st1. unfold_state. apply upd_same. }
  (* the SUB *)
  assert (Hpc2 : 0 <= reg st1 7 <= 65535) by (rewrite R1 by congruence; lia).
  destruct (fetch_at st1 Hpc2) as (st1' & Hf2).
  assert (M1 : mem st1 = mem st) by exact Hmem.
  rewrite M1, (R1 7), Hw2 in Hf2 by congruence.
  destruct (fetch_frame _ _ _ Hf2) as (Hregs2 & _).
  pose proof (step_execute _ _ _ _ Hf2 Hd2) as E2.
  unfold execute in E2. rewrite Hd2, Hs2, Ht2, exec_SUB_REG in E2.
  cbv zeta in E2.
  rewrite (Hregs2 k Hk), (Hregs2 j Hj), (R1 k Hkj), Rj, (Hregs k Hk), Hrk in E2.
  cbn [continue] in E2.
  exists st1. eexists. split; [exact E1|]. split; [exact E2|].
  split; [exact Rj|]. split.
  - unfold_state. rewrite upd_same, sub_small, land_MASK16 by lia.
    rewrite Zminus_mod_idemp_l. replace (a + b - b) with a by lia.
    apply Z.mod_small. lia.
  - unfold nzvc. unfold_state. apply sub_flags_reference; lia.
Qed.

(** a = 0177777 and b = 2: the sum wraps to 1 and the SUB gives a back. *)
Lemma C4_witness :
  exists st1 st2,
    step state_add_sub = Running st1 /\ step st1 = Running st2 /\
    reg st1 2 = (65535 + 2) mod 65536 /\
    reg st2 2 = 65535 /\
    nzvc st2 = Reference.sub_flags 2 ((65535 + 2) mod 65536).
Proof.
  eapply (C4_add_then_sub_recovers state_add_sub _ 24642 57538 1 2 3 65535 2);
    try reflexivity; try lia; try discriminate.
  - repeat split.
  - repeat split.
Defined.

(** ** Operand resolution leaves memory, flags and write/branch counters *)

Lemma get_operand_frame (p p' : addr_phrase) (st st' : state) :
  get_operand p st = Ok (p', st') ->
  ap_mode p' = ap_mode p /\ ap_reg p' = ap_reg p /\
  mem st' = mem st /\ nzvc st' = nzvc st /\
  words_written st' = words_written st /\
  br_exec st' = br_exec st /\ br_taken st' = br_taken st.
Proof.
  unfold get_operand, bind, mem_read, assert. intros H.
  repeat match type of H with
         | context [if ?c then _ else _] => destruct c eqn:?
         end;
    try discriminate H; injection H as <- <-; unfold_state; repeat split.
Qed.

(** ** MOV *)



(** ** Branch counters *)

Lemma exec_SOB_eq (w : Z) (src : addr_phrase) (st : state) :
  exec_SOB w src st
  = let r := ap_reg src in
    let st1 := with_br_exec st (CInt.add (br_exec st) 1) in
    let st2 := set_reg st1 r (CInt.sub (reg st r) 1) in
    if nonzero (CInt.sub (reg st r) 1) then
      Ok (set_reg (with_br_taken st2 (CInt.add (br_taken st) 1)) 7
            (Z.land (CInt.sub (reg st2 7) (CInt.shl (Z.land w 63) 1)) MASK16))
    else Ok st2.
Proof.
  unfold exec_SOB. rewrite shift_extend_six_bits.
  cbn [bind get_operand ap_mode ap_reg Z.eqb REG]. unfold_state.
  rewrite upd_same. cbv zeta. unfold_state. reflexivity.
Qed.



(** ** SOB *)

(** One SOB on a register other than the PC. *)
Lemma sob_step (st st0 : state) (w : Z) :
  fetch st = Ok (w, st0) -> decode w = Some FSOB ->
  ap_reg (src_of w) <> 7 ->
  exists st',
    step st = Running st' /\
    reg st' (ap_reg (src_of w)) = CInt.sub (reg st (ap_reg (src_of w))) 1 /\
    reg st' 7
    = (if nonzero (CInt.sub (reg st (ap_reg (src_of w))) 1)
       then (reg st0 7 - 2 * Z.land w 63) mod 65536
       else reg st0 7) /\
    (forall k, k <> ap_reg (src_of w) -> k <> 7 -> reg st' k = reg st k) /\
    mem st' = mem st /\
    br_exec st' = CInt.add (br_exec st) 1 /\
    br_taken st' = (if nonzero (CInt.sub (reg st (ap_reg (src_of w))) 1)
                    then CInt.add (br_taken st) 1 else br_taken st).
Proof.
  intros Hf Hd Hr. rewrite (step_execute _ _ _ _ Hf Hd).
  destruct (fetch_frame _ _ _ Hf) as (Hregs & Hm & _ & He & Ht & _).
  pose proof (fetch_pc_range _ _ _ Hf) as Hpc.
  unfold execute. rewrite Hd, exec_SOB_eq. cbv zeta.
  set (r := ap_reg (src_of w)) in *.
  assert (Hoff : 0 <= Z.land w 63 < 64).
  { change 63 with (Z.ones 6). rewrite Z.land_ones by lia.
    apply Z.mod_pos_bound. reflexivity. }
  rewrite (Hregs r Hr).
  destruct (nonzero (CInt.sub (reg st r) 1)); cbn [continue];
    eexists; (split; [reflexivity|]); unfold_state.
  - rewrite upd_same, (upd_other _ 7 _ r Hr), upd_same.
    rewrite (upd_other _ r _ 7) by congruence.
    rewrite shl1_small, (sub_small (reg st0 7)), land_MASK16 by lia.
    rewrite He, Ht. repeat split; try assumption.
    intros k Hk Hk7. rewrite !upd_other by assumption. apply Hregs, Hk7.
  - rewrite upd_same, (upd_other _ r _ 7) by congruence.
    rewrite He, Ht. repeat split; try assumption.
    intros k Hk Hk7. rewrite upd_other by assumption. apply Hregs, Hk7.
Qed.

(** C8, amended: SOB decrements its register (other than the PC) by one; if
    the result is nonzero the new PC is the advanced PC minus twice the low
    six bits of the word taken as an unsigned number, modulo 65536, and
    otherwise the advanced PC stays; the shift pair of the source leaves a
    6-bit field as it is.  A register holding 1 is decremented to 0 without
    a branch; the one-instruction loop on a register holding 2 branches back
    once and then falls through. *)
Theorem C8_sob_unsigned_offset (st st0 : state) (w : Z) :
  fetch st = Ok (w, st0) -> decode w = Some FSOB ->
  ap_reg (src_of w) <> 7 ->
  shift_extend (Z.land w 63) = Z.land w 63 /\
  0 <= Z.land w 63 <= 63 /\
  (exists st',
     step st = Running st' /\
     reg st' (ap_reg (src_of w)) = CInt.sub (reg st (ap_reg (src_of w))) 1 /\
     reg st' 7
     = (if nonzero (CInt.sub (reg st (ap_reg (src_of w))) 1)
        then (reg st0 7 - 2 * Z.land w 63) mod 65536
        else reg st0 7) /\
     br_taken st' = (if nonzero (CInt.sub (reg st (ap_reg (src_of w))) 1)
                     then CInt.add (br_taken st) 1 else br_taken st)) /\
  (reg st (ap_reg (src_of w)) = 1 ->
   exists st',
     step st = Running st' /\ reg st' (ap_reg (src_of w)) = 0 /\
     reg st' 7 = reg st0 7 /\ br_taken st' = br_taken st) /\
  (reg st (ap_reg (src_of w)) = 2 -> Z.land w 63 = 1 ->
   exists st1 st2,
     step st = Running st1 /\ step st1 = Running st2 /\
     reg st1 7 = reg st 7 /\ reg st1 (ap_reg (src_of w)) = 1 /\
     br_taken st1 = CInt.add (br_taken st) 1 /\
     reg st2 7 = reg st0 7 /\ reg st2 (ap_reg (src_of w)) = 0 /\
     br_taken st2 = br_taken st1).
Proof.
  intros Hf Hd Hr.
  destruct (sob_step _ _ _ Hf Hd Hr)
    as (st' & Hs & Hdec & Hpc & Hoth & Hm & He & Ht).
  split; [apply shift_extend_six_bits|]. split.
  { change 63 with (Z.ones 6) at 1 2. rewrite Z.land_ones by lia.
    pose proof (Z.mod_pos_bound w (2 ^ 6) ltac:(lia)).
    change (2 ^ 6) with 64 in *. lia. }
  split; [exists st'; auto|]. split.
  - intros H1. exists st'. rewrite H1 in *.
    change (CInt.sub 1 1) with 0 in *. auto.
  - intros H2 Hoff. rewrite H2, Hoff in *.
    change (CInt.sub 2 1) with 1 in *. cbn [nonzero Z.eqb negb] in Hpc, Ht.
    (* the PC is back on the SOB *)
    apply fetch_inv in Hf as Hf'. destruct Hf' as (Hin & Hw & Hst0).
    assert (Hpc0 : 0 <= reg st 7 <= 65535).
    { unfold in_mem, CInt.shr, MEM_SIZE in Hin.
      rewrite Z.shiftr_div_pow2 in Hin by lia. change (2 ^ 1) with 2 in Hin.
      apply andb_prop in Hin as (Hlo & Hhi).
      apply Z.leb_le in Hlo. apply Z.ltb_lt in Hhi.
      pose proof (Z.div_mod (reg st 7) 2 ltac:(lia)).
      pose proof (Z.mod_pos_bound (reg st 7) 2 ltac:(lia)). lia. }
    assert (Hback : reg st' 7 = reg st 7).
    { rewrite Hpc, Hst0. unfold_state.
      rewrite upd_same, add_small, land_MASK16 by lia.
      change (2 * 1) with 2.
      rewrite Zminus_mod_idemp_l. replace (reg st 7 + 2 - 2) with (reg st 7)
        by lia.
      apply Z.mod_small. lia. }
    destruct (fetch_at st' ltac:(rewrite Hback; exact Hpc0)) as (st0' & Hf2).
    rewrite Hm, Hback, <- Hw in Hf2.
    assert (Hsame : reg st0' 7 = reg st0 7).
    { apply fetch_inv in Hf2 as (_ & _ & ->). rewrite Hst0. unfold_state.
      rewrite !upd_same, Hback. reflexivity. }
    destruct (sob_step _ _ _ Hf2 Hd Hr)
      as (st2 & Hs2 & Hdec2 & Hpc2 & _ & _ & _ & Ht2).
    rewrite Hdec in Hdec2, Hpc2, Ht2.
    change (CInt.sub 1 1) with 0 in *. cbn [nonzero Z.eqb negb] in Hpc2, Ht2.
    exists st', st2. repeat split; try assumption.
    rewrite Hpc2. exact Hsame.
Qed.

(** The one-instruction loop SOB R0, 1 with R0 = 2. *)
Lemma C8_witness :
  exists st1 st2,
    step state_sob_loop = Running st1 /\ step st1 = Running st2 /\
    reg st1 7 = 0 /\ reg st1 0 = 1 /\ br_taken st1 = 1 /\
    reg st2 7 = 2 /\ reg st2 0 = 0 /\ br_taken st2 = 1.
Proof.
  destruct (C8_sob_unsigned_offset state_sob_loop
              (set_reg (with_instr_fetch (with_instr_exec
                 state_sob_loop 1) 1) 7 2) 32257
              eq_refl eq_refl ltac:(discriminate))
    as (_ & _ & _ & _ & Hloop).
  destruct (Hloop eq_refl eq_refl)
    as (st1 & st2 & H1 & H2 & Hp1 & Hr1 & Ht1 & Hp2 & Hr2 & Ht2).
  exists st1, st2. repeat split; try assumption.
  rewrite Ht2. exact Ht1.
Defined.

(** C8 as stated fails for an offset field with bit 5 set: the SOB at 0200
    with the field 077 and R0 = 2, decremented to 1, leaves the PC at
    0202 - 2 * 63 = 4, while the sign-extended 6-bit field is -1 and would
    give 0202 + 2 = 0204. *)
Lemma C8_counterexample :
  exists st st0 st',
    main 2 prog_sob_far = Unfinished st /\
    fetch st = Ok (32319, st0) /\ decode 32319 = Some FSOB /\
    step st = Running st' /\
    reg st 0 = 2 /\ reg st' 0 = 1 /\
    Reference.sob_offset_signed 32319 = -1 /\
    reg st0 7 = 130 /\ reg st' 7 = 4 /\
    reg st' 7 <> reg st0 7 - 2 * Reference.sob_offset_signed 32319 /\
    reg st' 7 <> (reg st0 7 - 2 * Reference.sob_offset_signed 32319) mod 65536.
Proof.
  eexists. eexists. eexists.
  split; [vm_compute; reflexivity|].
  split; [vm_compute; reflexivity|].
  split; [reflexivity|].
  split; [vm_compute; reflexivity|].
  vm_compute. repeat split; discriminate.
Qed.

(** ** ASL and ASR *)

Lemma get_operand_REG_value (p d : addr_phrase) (st st1 : state) :
  get_operand p st = Ok (d, st1) -> ap_mode d = REG ->
  ap_value d = reg st1 (ap_reg d).
Proof.
  intros H Hm. pose proof (get_operand_frame _ _ _ _ H) as (Hmode & _).
  unfold get_operand in H. destruct (ap_mode p =? REG) eqn:E.
  - injection H as <- <-. reflexivity.
  - apply Z.eqb_neq in E. congruence.
Qed.

(** C9: ASL and ASR shift the destination register as operand resolution
    left it and write the result to that register; the C flag comes from the
    resolved operand value; memory is not written.  In Register mode the two
    values are the same; with ASL -(R1) and R1 = 4 the register read is 2
    while the resolved memory operand is 4, and R1 ends as 4, not 8. *)
Theorem C9_shift_uses_register :
  (forall (st st0 st1 : state) (w : Z) (f : family) (d : addr_phrase),
      fetch st = Ok (w, st0) -> decode w = Some f ->
      f = FASL \/ f = FASR ->
      get_operand (dst_of w) st0 = Ok (d, st1) ->
      exists st',
        step st = Running st' /\
        (forall k, reg st' k
                   = if k =? ap_reg d then shifted f (reg st1 (ap_reg d))
                     else reg st1 k) /\
        cc_c st' = Z.b2z (Z.testbit (ap_value d) (carry_bit f)) /\
        mem st' = mem st /\ words_written st' = words_written st /\
        (ap_mode d = REG -> ap_value d = reg st1 (ap_reg d))) /\
  (exists st st0 st1 st' d,
      main 1 prog_asl_autodec = Unfinished st /\
      fetch st = Ok (3297, st0) /\ decode 3297 = Some FASL /\
      get_operand (dst_of 3297) st0 = Ok (d, st1) /\
      step st = Running st' /\
      ap_mode d = AUTO_DEC /\ ap_reg d = 1 /\
      reg st 1 = 4 /\ reg st1 1 = 2 /\ ap_value d = 4 /\
      reg st' 1 = 4 /\ shifted FASL (ap_value d) = 8 /\
      mem st' 1 = 4).
Proof.
  split.
  - intros st st0 st1 w f d Hf Hd Hshift Hg.
    rewrite (step_execute _ _ _ _ Hf Hd).
    destruct (fetch_frame _ _ _ Hf) as (_ & Hm0 & _ & _ & _ & Hw0).
    destruct (get_operand_frame _ _ _ _ Hg) as (_ & _ & Hm1 & _ & Hw1 & _).
    pose proof (get_operand_REG_value _ _ _ _ Hg) as Hreg.
    unfold execute. rewrite Hd.
    destruct Hshift as [-> | ->].
    + unfold exec_ASL. rewrite Hg. cbn [bind continue].
      eexists. split; [reflexivity|]. unfold_state.
      rewrite sign_flag. repeat split; try congruence; exact Hreg.
    + unfold exec_ASR. rewrite Hg. cbn [bind continue].
      eexists. split; [reflexivity|]. unfold_state.
      rewrite low_flag. repeat split; try congruence; exact Hreg.
  - do 5 eexists.
    split; [vm_compute; reflexivity|].
    split; [vm_compute; reflexivity|].
    split; [reflexivity|].
    split; [vm_compute; reflexivity|].
    split; [vm_compute; reflexivity|].
    vm_compute. repeat split.
Qed.

(** ASR R2 on 0100001 gives 0140000 with C set. *)
Lemma C9_witness :
  exists st',
    step state_asr = Running st' /\
    reg st' 2 = 49152 /\ cc_c st' = 1 /\ mem st' = mem state_asr.
Proof.
  destruct (proj1 C9_shift_uses_register state_asr
              (set_reg (with_instr_fetch (with_instr_exec state_asr 1) 1) 7 2)
              (set_reg (with_instr_fetch (with_instr_exec state_asr 1) 1) 7 2)
              3202 FASR (mkAP 0 2 0 32769)
              eq_refl eq_refl (or_intror eq_refl) eq_refl)
    as (st' & Hs & Hr & Hc & Hm & _).
  exists st'. split; [exact Hs|]. split; [|split; [exact Hc | exact Hm]].
  rewrite Hr. reflexivity.
Defined.

(** ** The assertions of AutoIncrement *)

Lemma shr1_in_mem (a : Z) : 0 <= a <= 65535 -> in_mem (CInt.shr a 1) = true.
Proof.
  intros H. unfold in_mem, CInt.shr, MEM_SIZE.
  rewrite Z.shiftr_div_pow2 by lia. change (2 ^ 1) with 2.
  pose proof (Z.div_pos a 2 ltac:(lia) ltac:(lia)).
  pose proof (Z.div_lt_upper_bound a 2 32768 ltac:(lia) ltac:(lia)).
  apply andb_true_intro. split; [apply Z.leb_le | apply Z.ltb_lt]; lia.
Qed.

Lemma get_operand_AUTO_INC (p : addr_phrase) (st : state) :
  ap_mode p = AUTO_INC ->
  get_operand p st
  = let r := ap_reg p in
    let st1 := if r =? 7
               then with_instr_fetch st (CInt.add (instr_fetch st) 1)
               else st in
    _ <- assert (reg st r <? BIT16) ;;
    value <- mem_read st (CInt.shr (reg st r) 1) ;;
    _ <- assert (value <? BIT16) ;;
    Ok (mkAP AUTO_INC r (reg st r) value,
        set_reg st1 r (Z.land (CInt.add (reg st r) 2) MASK16)).
Proof.
  intros Hm. unfold get_operand. rewrite Hm.
  cbn [Z.eqb AUTO_INC REG REG_DEF Pos.eqb]. cbv zeta.
  destruct (ap_reg p =? 7); reflexivity.
Qed.

(** C10: in AutoIncrement mode [get_operand] aborts on its first assertion
    when the register holds 0200000 or more, and on its second when the word
    fetched holds 0200000 or more; when every register and every memory word
    is below 0200000 no assertion fails, and when they are 16-bit values the
    operand is resolved. *)
Theorem C10_auto_inc_assertions (p : addr_phrase) (st : state) :
  ap_mode p = AUTO_INC -> 0 <= ap_reg p < 8 ->
  (BIT16 <= reg st (ap_reg p) -> get_operand p st = Err AssertionFailed) /\
  (0 <= reg st (ap_reg p) < BIT16 ->
   BIT16 <= mem st (CInt.shr (reg st (ap_reg p)) 1) ->
   get_operand p st = Err AssertionFailed) /\
  ((forall r, 0 <= r < 8 -> reg st r < BIT16) ->
   (forall i, 0 <= i < MEM_SIZE -> mem st i < BIT16) ->
   get_operand p st <> Err AssertionFailed) /\
  (all_word16 st ->
   exists st',
     get_operand p st
     = Ok (mkAP AUTO_INC (ap_reg p) (reg st (ap_reg p))
             (mem st (CInt.shr (reg st (ap_reg p)) 1)), st') /\
     reg st' (ap_reg p) = (reg st (ap_reg p) + 2) mod 65536).
Proof.
  intros Hm Hr. rewrite (get_operand_AUTO_INC _ _ Hm). cbv zeta.
  unfold assert, mem_read, BIT16. repeat split.
  - intros H. apply Z.ltb_ge in H. rewrite H. reflexivity.
  - intros H Hv. destruct H as [H0 H1].
    rewrite (proj2 (Z.ltb_lt _ _) H1), shr1_in_mem by lia. cbn [bind].
    apply Z.ltb_ge in Hv. rewrite Hv. reflexivity.
  - intros Hregs Hmem.
    rewrite (proj2 (Z.ltb_lt _ _) (Hregs _ Hr)). cbn [bind].
    destruct (in_mem (CInt.shr (reg st (ap_reg p)) 1)) eqn:E;
      [|cbn [bind]; discriminate].
    cbn [bind]. unfold in_mem in E. apply andb_prop in E as (E0 & E1).
    apply Z.leb_le in E0. apply Z.ltb_lt in E1.
    rewrite (proj2 (Z.ltb_lt _ _) (Hmem _ (conj E0 E1))). cbn [bind].
    discriminate.
  - intros (Hregs & Hmem). pose proof (Hregs _ Hr) as Hv. unfold word16 in Hv.
    rewrite (proj2 (Z.ltb_lt (reg st (ap_reg p)) 65536) ltac:(lia)).
    pose proof (shr1_in_mem _ Hv) as E. rewrite E. cbn [bind].
    unfold in_mem in E. apply andb_prop in E as (E0 & E1).
    apply Z.leb_le in E0. apply Z.ltb_lt in E1.
    pose proof (Hmem _ (conj E0 E1)) as Hw. unfold word16 in Hw.
    assert (Hlt : (mem st (CInt.shr (reg st (ap_reg p)) 1) <? 65536) = true)
      by (apply Z.ltb_lt; lia).
    rewrite Hlt. cbn [bind]. eexists. split; [reflexivity|].
    destruct (ap_reg p =? 7); unfold_state;
      rewrite upd_same, add_small, land_MASK16 by lia; reflexivity.
Qed.

(** The immediate operand of MOV #5, R0: AutoIncrement on the PC at 2. *)
Lemma C10_witness :
  get_operand (mkAP AUTO_INC 7 0 0) (set_reg (loaded prog_mov_add) 7 2)
  <> Err AssertionFailed /\
  exists st',
    get_operand (mkAP AUTO_INC 7 0 0) (set_reg (loaded prog_mov_add) 7 2)
    = Ok (mkAP AUTO_INC 7 2 5, st') /\ reg st' 7 = 4.
Proof.
  assert (Hregs : forall r, 0 <= r < 8 ->
            0 <= reg (set_reg (loaded prog_mov_add) 7 2) r <= 65535).
  { intros r _. cbn. unfold upd. destruct (r =? 7); lia. }
  assert (Hmem : forall i, 0 <= i < MEM_SIZE ->
            0 <= mem (set_reg (loaded prog_mov_add) 7 2) i <= 65535).
  { intros i _. cbn. unfold upd.
    repeat match goal with
           | |- context [if ?c then _ else _] => destruct c
           end; lia. }
  destruct (C10_auto_inc_assertions (mkAP AUTO_INC 7 0 0)
              (set_reg (loaded prog_mov_add) 7 2) eq_refl
              ltac:(cbn; lia))
    as (_ & _ & Hno & Hok).
  split.
  - apply Hno.
    + intros r Hr. pose proof (Hregs r Hr). unfold BIT16. lia.
    + intros i Hi. pose proof (Hmem i Hi). unfold BIT16. lia.
  - destruct (Hok (conj Hregs Hmem)) as (st' & Hg & Hr').
    exists st'. split; [exact Hg | exact Hr'].
Defined.

(** ** Halt and the illegal instruction *)

(** The halt word ends the run with exit code 0. *)
Lemma halt_exit (st st0 : state) (n : nat) :
  fetch st = Ok (0, st0) -> run (S n) st = Exit 0 None st0.
Proof.
  intros Hf. cbn [run]. unfold step. rewrite Hf. reflexivity.
Qed.

(** A nonzero word of no family ends the run with exit code -1 and the
    report of the advanced PC minus 2; for a word below 0177776 that is its
    own address. *)
Lemma bad_instruction_exit (st st0 : state) (w : Z) (n : nat) :
  fetch st = Ok (w, st0) -> w <> 0 -> decode w = None ->
  run (S n) st = Exit (-1) (Some (reg st0 7 - 2)) st0 /\
  (reg st 7 <= 65533 -> reg st0 7 - 2 = reg st 7).
Proof.
  intros Hf Hw Hd. pose proof (fetch_pc_range _ _ _ Hf) as Hpc. split.
  - cbn [run]. unfold step. rewrite Hf.
    apply Z.eqb_neq in Hw. rewrite Hw. unfold execute. rewrite Hd.
    rewrite sub_small by lia. reflexivity.
  - intros Hlow. destruct (fetch_advances _ _ _ Hf Hlow) as (E & _). lia.
Qed.

(** C6 at the top of memory: the illegal word 0100000 sits at 0177776, the
    fetch wraps the PC to 0, and the address reported is -2, with exit
    code -1. *)
Theorem C6_report_at_top_of_memory :
  exists st4 st5,
    main 4 prog_bad_top = Unfinished st4 /\
    reg st4 7 = 65534 /\ mem st4 (CInt.shr 65534 1) = 32768 /\
    decode 32768 = None /\
    step st4 = BadInstruction (-2) st5 /\ reg st5 7 = 0 /\
    main 5 prog_bad_top = Exit (-1) (Some (-2)) st5.
Proof.
  do 2 eexists.
  split; [vm_compute; reflexivity|].
  split; [vm_compute; reflexivity|].
  split; [vm_compute; reflexivity|].
  split; [reflexivity|].
  split; [vm_compute; reflexivity|].
  split; vm_compute; reflexivity.
Qed.

(** * Further properties of the code *)

(** ** load_program *)

Lemma load_from_ok (ws : list Z) (i : Z) (st : state) :
  0 <= i -> i + Z.of_nat (length ws) <= MEM_SIZE ->
  exists st',
    load_from ws i st = Ok st' /\
    reg st' = reg st /\ nzvc st' = nzvc st /\
    instr_exec st' = instr_exec st /\ instr_fetch st' = instr_fetch st /\
    words_read st' = words_read st /\ words_written st' = words_written st /\
    br_exec st' = br_exec st /\ br_taken st' = br_taken st /\
    (forall j, 0 <= j < Z.of_nat (length ws) ->
               mem st' (i + j) = nth (Z.to_nat j) ws 0) /\
    (forall k, k < i \/ i + Z.of_nat (length ws) <= k -> mem st' k = mem st k).
Proof.
  revert i st. induction ws as [|k ws IH]; intros i st Hi Hlen.
  - exists st. cbn [load_from length] in *. repeat split; try reflexivity.
    intros j Hj. cbn in Hj. lia.
  - cbn [length] in Hlen. rewrite Nat2Z.inj_succ in Hlen.
    cbn [load_from]. unfold mem_write, in_mem.
    replace ((0 <=? i) && (i <? MEM_SIZE)) with true
      by (symmetry; apply andb_true_intro;
          split; [apply Z.leb_le | apply Z.ltb_lt]; lia).
    cbn [bind].
    destruct (IH (i + 1) (with_mem st (upd (mem st) i k)) ltac:(lia) ltac:(lia))
      as (st' & Hl & Hr & Hc & H1 & H2 & H3 & H4 & H5 & H6 & Hin & Hout).
    exists st'. split; [exact Hl|]. unfold_state.
    repeat (split; [assumption|]). split.
    + intros j Hj. cbn [length] in Hj. rewrite Nat2Z.inj_succ in Hj.
      destruct (Z.eq_dec j 0) as [->|Hj0].
      * rewrite Z.add_0_r, Hout by lia. cbn. apply upd_same.
      * replace (i + j) with (i + 1 + (j - 1)) by lia.
        rewrite Hin by lia.
        replace (Z.to_nat j) with (S (Z.to_nat (j - 1))) by lia. reflexivity.
    + intros m Hm. cbn [length] in Hm. rewrite Nat2Z.inj_succ in Hm.
      rewrite Hout by lia. apply upd_other. lia.
Qed.

Lemma load_from_overflow (ws : list Z) (i : Z) (st : state) :
  0 <= i <= MEM_SIZE -> MEM_SIZE < i + Z.of_nat (length ws) ->
  load_from ws i st = Err OutOfBounds.
Proof.
  revert i st. induction ws as [|k ws IH]; intros i st Hi Hlen.
  - cbn [length] in Hlen. lia.
  - cbn [length] in Hlen. rewrite Nat2Z.inj_succ in Hlen.
    cbn [load_from]. unfold mem_write, in_mem.
    destruct (Z.ltb_spec i MEM_SIZE) as [Hlt|Hge].
    + replace (0 <=? i) with true by (symmetry; apply Z.leb_le; lia).
      cbn [andb bind]. apply IH; lia.
    + rewrite andb_false_r. reflexivity.
Qed.

(** X1: an input of at most 32768 words is loaded word by word from
    [mem[0]] on, the rest of memory, the registers, the flags and the
    counters staying zero; a longer input runs past the end of [mem]. *)
Theorem X1_load_program (ws : list Z) :
  (Z.of_nat (length ws) <= MEM_SIZE ->
   exists st,
     load_program ws = Ok st /\
     (forall j, 0 <= j < Z.of_nat (length ws) ->
                mem st j = nth (Z.to_nat j) ws 0) /\
     (forall j, Z.of_nat (length ws) <= j -> mem st j = 0) /\
     (forall r, reg st r = 0) /\ nzvc st = (0, 0, 0, 0) /\
     instr_exec st = 0 /\ instr_fetch st = 0 /\ words_read st = 0 /\
     words_written st = 0 /\ br_exec st = 0 /\ br_taken st = 0) /\
  (MEM_SIZE < Z.of_nat (length ws) -> load_program ws = Err OutOfBounds).
Proof.
  split.
  - intros Hlen.
    destruct (load_from_ok ws 0 zero_state ltac:(lia) ltac:(lia))
      as (st & Hl & Hr & Hc & H1 & H2 & H3 & H4 & H5 & H6 & Hin & Hout).
    exists st. split; [exact Hl|]. split; [intros j Hj; apply (Hin j Hj)|].
    split; [intros j Hj; rewrite Hout by lia; reflexivity|].
    split; [intros r; rewrite Hr; reflexivity|].
    repeat split; assumption.
  - intros Hlen. apply load_from_overflow; unfold MEM_SIZE in *; lia.
Qed.

(** The five words of MOV #5, R0; ADD #3, R0; halt. *)
Lemma X1_witness :
  exists st,
    load_program prog_mov_add = Ok st /\
    mem st 2 = 26048 /\ mem st 5 = 0 /\ reg st 7 = 0.
Proof.
  destruct (proj1 (X1_load_program prog_mov_add) ltac:(vm_compute; discriminate))
    as (st & Hl & Hin & Hout & Hr & _).
  exists st. split; [exact Hl|].
  split; [exact (Hin 2 ltac:(cbn; lia))|].
  split; [exact (Hout 5 ltac:(cbn; lia)) | exact (Hr 7)].
Defined.

(** ** The instruction decoder *)

Lemma shiftr_eqb_range (w n k : Z) :
  0 <= n ->
  (Z.shiftr w n =? k) = (k * 2 ^ n <=? w) && (w <? (k + 1) * 2 ^ n).
Proof.
  intros Hn. rewrite Z.shiftr_div_pow2 by assumption.
  pose proof (Z.pow_pos_nonneg 2 n ltac:(lia) Hn) as Hp.
  pose proof (Z.div_mod w (2 ^ n) ltac:(lia)) as Hd.
  pose proof (Z.mod_pos_bound w (2 ^ n) Hp) as Hm.
  destruct (Z.eqb_spec (w / 2 ^ n) k) as [E|E];
    destruct (Z.leb_spec (k * 2 ^ n) w);
    destruct (Z.ltb_spec w ((k + 1) * 2 ^ n));
    cbn [andb]; try reflexivity; exfalso; nia.
Qed.

Lemma decode_as_range (w : Z) : decode w = family_of_range w.
Proof.
  unfold decode, family_of_range, MOV, CMP, ADD, SUB, BR, BEQ, ASL, ASR,
    SOB, BNE.
  rewrite !shiftr_eqb_range by lia. reflexivity.
Qed.

(** X2: the three switches classify a word by its value alone: the four
    double-operand families are the blocks 01xxxx, 02xxxx, 06xxxx and
    16xxxx; BR is 000400..000477 and BEQ 001400..001477 (offsets 0..077
    only); ASR is 0062xx, ASL 0063xx, SOB 077xxx; BNE is what is left of
    001000..001777; every other word is illegal. *)
Theorem X2_decode_by_range (w : Z) : decode w = family_of_range w.
Proof. apply decode_as_range. Qed.

(** ** Branch encodings *)

Ltac range_false :=
  match goal with
  | |- context [(?a <=? ?b) && (?c <? ?d)] =>
      replace ((a <=? b) && (c <? d)) with false
        by (symmetry; apply andb_false_iff;
            first [left; apply Z.leb_gt; lia | right; apply Z.ltb_ge; lia])
  end.

Ltac range_true :=
  match goal with
  | |- context [(?a <=? ?b) && (?c <? ?d)] =>
      replace ((a <=? b) && (c <? d)) with true
        by (symmetry; apply andb_true_intro;
            split; [apply Z.leb_le; lia | apply Z.ltb_lt; lia])
  end.

(** X3: the words 000500..000777, which would be BR with a negative
    offset, are illegal, and the words 001500..001777 run as BNE; a BR that
    is executed moves the advanced PC forward by twice its offset 0..077,
    modulo 65536. *)
Theorem X3_branch_encodings :
  (forall w, 320 <= w < 512 -> decode w = None) /\
  (forall w, 832 <= w < 1024 -> decode w = Some FBNE) /\
  (forall st st0 w,
      fetch st = Ok (w, st0) -> decode w = Some FBR ->
      exists st',
        step st = Running st' /\ 0 <= w - 256 <= 63 /\
        reg st' 7 = (reg st0 7 + 2 * (w - 256)) mod 65536).
Proof.
  split; [|split].
  - intros w Hw. rewrite decode_as_range. unfold family_of_range.
    repeat range_false. reflexivity.
  - intros w Hw. rewrite decode_as_range. unfold family_of_range.
    repeat range_false. range_true. reflexivity.
  - intros st st0 w Hf Hd.
    pose proof (fetch_pc_range _ _ _ Hf) as Hpc.
    assert (Hw : 256 <= w < 320).
    { pose proof Hd as Hr. rewrite decode_as_range in Hr.
      unfold family_of_range in Hr.
      repeat match type of Hr with
             | (if ?c then _ else _) = _ => destruct c eqn:?; try discriminate Hr
             end.
      match goal with
      | E : (256 <=? w) && (w <? 320) = true |- _ =>
          apply andb_prop in E as [E1 E2];
          apply Z.leb_le in E1; apply Z.ltb_lt in E2; lia
      end. }
    rewrite (step_execute _ _ _ _ Hf Hd). unfold execute. rewrite Hd.
    eexists. split; [reflexivity|]. split; [lia|].
    unfold exec_BR. unfold_state. rewrite upd_same.
    assert (Hlow : Z.land w 255 = w - 256).
    { change 255 with (Z.ones 8). rewrite Z.land_ones by lia.
      change (2 ^ 8) with 256.
      symmetry. apply Z.mod_unique with (q := 1); lia. }
    rewrite Hlow, shift_extend_byte by lia.
    unfold Reference.sign_extend. change (8 - 1) with 7.
    replace (Z.testbit (w - 256) 7) with false.
    + rewrite shl1_small, add_small, land_MASK16 by lia. reflexivity.
    + symmetry. destruct (Z.eq_dec (w - 256) 0) as [->|Hne];
        [apply Z.bits_0|].
      apply Z.bits_above_log2; [lia|].
      apply Z.log2_lt_pow2; [|change (2 ^ 7) with 128]; lia.
Qed.

(** BR with offset 1 -- the word 000401 -- at address 0 goes to 4. *)
Lemma X3_witness :
  exists st',
    step (loaded [257]) = Running st' /\ reg st' 7 = 4.
Proof.
  destruct (proj2 (proj2 X3_branch_encodings) (loaded [257])
              (set_reg (with_instr_fetch (with_instr_exec (loaded [257]) 1) 1)
                 7 2) 257 eq_refl eq_refl)
    as (st' & Hs & _ & Hpc).
  exists st'. split; [exact Hs | exact Hpc].
Defined.

(** ** What operand resolution charges and touches *)

Lemma add_counter (c k : Z) :
  counter_ok c -> 0 <= k <= 3 -> CInt.add c k = c + k.
Proof.
  unfold counter_ok, CInt.add. intros Hc Hk. apply wrap_small.
  unfold CInt.int_min, CInt.int_max in *. lia.
Qed.

(** Case analysis on the mode of [get_operand], one [case] at a time. *)
Ltac mode_cases H :=
  unfold get_operand in H;
  repeat match type of H with
    | (if ap_mode ?p =? ?k then _ else _) = _ =>
        destruct (Z.eqb_spec (ap_mode p) k)
    end.

Ltac resolve_reads H :=
  unfold bind, mem_read, assert in H;
  repeat match type of H with
    | context [if ?c then _ else _] => destruct c eqn:?
    end;
  try discriminate H; injection H as <- <-.

(** X4: a successful operand resolution adds to the fetched-words counter
    one word for an immediate operand (AutoIncrement on the PC) and one for
    an index displacement, and to the data-words-read counter nothing for
    Register and AutoIncrement, three for the index modes and one for every
    other mode. *)
Theorem X4_operand_costs (p p' : addr_phrase) (st st' : state) :
  get_operand p st = Ok (p', st') ->
  counter_ok (instr_fetch st) -> counter_ok (words_read st) ->
  instr_fetch st' = instr_fetch st + fetch_cost p /\
  words_read st' = words_read st + read_cost p.
Proof.
  intros H Hf Hr. unfold fetch_cost, read_cost.
  mode_cases H;
    repeat match goal with
      | E : ap_mode p = _ |- _ => rewrite E in *; clear E
      end;
    unfold REG, REG_DEF, AUTO_INC, AUTO_INC_DEF, AUTO_DEC, AUTO_DEC_DEF,
      INDEX, INDEX_DEF in *;
    cbn [Z.eqb Pos.eqb andb orb Z.leb Z.compare Pos.compare Pos.compare_cont].
  1-8: resolve_reads H; unfold_state;
    rewrite ?Z.eqb_refl; cbn [andb];
    rewrite ?add_counter by (assumption || lia); split; try lia.
  (* no case of the switch *)
  injection H as <- <-.
  assert (Hout : ap_mode p < 0 \/ 7 < ap_mode p) by lia.
  repeat match goal with
    | N : ap_mode p <> _ |- _ => apply Z.eqb_neq in N; rewrite N; clear N
    end.
  cbn [andb orb].
  replace ((0 <=? ap_mode p) && (ap_mode p <=? 7)) with false; [lia|].
  symmetry. apply andb_false_iff.
  destruct Hout; [left; apply Z.leb_gt | right; apply Z.leb_gt]; lia.
Qed.

(** Index mode on R1 in the loaded program MOV #5, R0; ADD #3, R0; halt. *)
Lemma X4_witness :
  exists p' st',
    get_operand (mkAP INDEX 1 0 0) (loaded prog_mov_add) = Ok (p', st') /\
    instr_fetch st' = 1 /\ words_read st' = 3.
Proof.
  destruct (get_operand (mkAP INDEX 1 0 0) (loaded prog_mov_add))
    as [[p' st']|] eqn:E; [|vm_compute in E; discriminate E].
  exists p', st'. split; [reflexivity|].
  apply (X4_operand_costs _ _ _ _ E);
    unfold counter_ok; vm_compute; split; discriminate.
Defined.

(** X5: operand resolution never writes memory, the flags, or the counters
    of executed instructions, written words and branches; of the registers
    it can change only the operand's own register and, in the index modes,
    the PC; Register and RegisterDeferred change no register, and the index
    modes leave an operand register other than the PC as it was. *)
Theorem X5_operand_footprint (p p' : addr_phrase) (st st' : state) :
  get_operand p st = Ok (p', st') ->
  mem st' = mem st /\ nzvc st' = nzvc st /\
  instr_exec st' = instr_exec st /\ words_written st' = words_written st /\
  br_exec st' = br_exec st /\ br_taken st' = br_taken st /\
  (forall k, k <> ap_reg p -> k <> 7 -> reg st' k = reg st k) /\
  (ap_mode p <> INDEX -> ap_mode p <> INDEX_DEF ->
   forall k, k <> ap_reg p -> reg st' k = reg st k) /\
  (ap_mode p = REG \/ ap_mode p = REG_DEF -> forall k, reg st' k = reg st k) /\
  (ap_mode p = INDEX \/ ap_mode p = INDEX_DEF -> ap_reg p <> 7 ->
   reg st' (ap_reg p) = reg st (ap_reg p)).
Proof.
  intros H. mode_cases H;
    repeat match goal with
      | E : ap_mode p = _ |- _ => rewrite E in *; clear E
      end;
    unfold REG, REG_DEF, AUTO_INC, AUTO_INC_DEF, AUTO_DEC, AUTO_DEC_DEF,
      INDEX, INDEX_DEF in *;
    resolve_reads H; unfold_state;
    repeat split; try reflexivity; intros;
    repeat match goal with
      | D : _ \/ _ |- _ => destruct D
      end;
    try congruence; try lia;
    rewrite ?upd_other by assumption; reflexivity.
Qed.

(** AutoDecrement on R1 = 4. *)
Lemma X5_witness :
  exists p' st',
    get_operand (mkAP AUTO_DEC 1 0 0) (set_reg (loaded prog_mov_add) 1 4)
    = Ok (p', st') /\
    mem st' = mem (loaded prog_mov_add) /\ reg st' 0 = 0 /\ reg st' 7 = 0.
Proof.
  destruct (get_operand (mkAP AUTO_DEC 1 0 0)
              (set_reg (loaded prog_mov_add) 1 4))
    as [[p' st']|] eqn:E; [|vm_compute in E; discriminate E].
  exists p', st'. split; [reflexivity|].
  destruct (X5_operand_footprint _ _ _ _ E)
    as (Hm & _ & _ & _ & _ & _ & _ & Hk & _).
  split; [exact Hm|].
  split; apply (Hk ltac:(discriminate) ltac:(discriminate)); discriminate.
Defined.

(** ** Operand resolution on 16-bit states *)

Lemma shr1_range (a : Z) : 0 <= a <= 65535 -> 0 <= CInt.shr a 1 < MEM_SIZE.
Proof.
  intros H. pose proof (shr1_in_mem a H) as E. unfold in_mem in E.
  apply andb_prop in E as [E1 E2].
  apply Z.leb_le in E1. apply Z.ltb_lt in E2. lia.
Qed.

Lemma word16_land (x : Z) : word16 (Z.land x MASK16).
Proof.
  rewrite land_MASK16. unfold word16.
  pose proof (Z.mod_pos_bound x 65536 ltac:(lia)). lia.
Qed.

Lemma all_word16_set_reg (st st' : state) (r v : Z) :
  all_word16 st -> word16 v ->
  reg st' = upd (reg st) r v -> mem st' = mem st -> all_word16 st'.
Proof.
  intros [Hr Hm] Hv Er Em. split.
  - intros k Hk. rewrite Er. unfold upd. destruct (k =? r); [exact Hv|].
    apply Hr, Hk.
  - intros i Hi. rewrite Em. apply Hm, Hi.
Qed.

Lemma all_word16_same (st st' : state) :
  all_word16 st -> reg st' = reg st -> mem st' = mem st -> all_word16 st'.
Proof.
  intros [Hr Hm] Er Em. split.
  - intros k Hk. rewrite Er. apply Hr, Hk.
  - intros i Hi. rewrite Em. apply Hm, Hi.
Qed.

Lemma mem_word16 (st : state) (a : Z) :
  all_word16 st -> 0 <= a <= 65535 -> word16 (mem st (CInt.shr a 1)).
Proof.
  intros [_ Hm] Ha. apply Hm, shr1_range, Ha.
Qed.

(** X6: on a state whose registers and memory words are all 16-bit values,
    operand resolution succeeds in every mode but AutoDecrementDeferred and
    returns a 16-bit value; it leaves such a state in every mode but
    AutoIncrementDeferred.  AutoDecrementDeferred indexes below [mem] when
    the register is 0 or 1, and succeeds, keeping the state 16-bit,
    otherwise. *)
Theorem X6_operand_safety (p : addr_phrase) (st : state) :
  all_word16 st -> 0 <= ap_reg p < 8 -> 0 <= ap_mode p <= 7 ->
  (ap_mode p <> AUTO_DEC_DEF ->
   exists p' st',
     get_operand p st = Ok (p', st') /\ word16 (ap_value p') /\
     (ap_mode p <> AUTO_INC_DEF -> all_word16 st')) /\
  (ap_mode p = AUTO_DEC_DEF ->
   (reg st (ap_reg p) < 2 -> get_operand p st = Err OutOfBounds) /\
   (2 <= reg st (ap_reg p) ->
    exists p' st',
      get_operand p st = Ok (p', st') /\ word16 (ap_value p') /\
      all_word16 st')).
Proof.
  intros Hst Hr Hm.
  pose proof (proj1 Hst _ Hr) as Hv.
  pose proof (proj1 Hst 7 ltac:(lia)) as Hpc.
  unfold word16 in Hv, Hpc.
  assert (Hcases : ap_mode p = 0 \/ ap_mode p = 1 \/ ap_mode p = 2 \/
                   ap_mode p = 3 \/ ap_mode p = 4 \/ ap_mode p = 5 \/
                   ap_mode p = 6 \/ ap_mode p = 7) by lia.
  unfold get_operand, AUTO_DEC_DEF, AUTO_INC_DEF.
  repeat destruct Hcases as [E | Hcases]; try rename Hcases into E;
    rewrite E;
    cbn [Z.eqb Pos.eqb REG REG_DEF AUTO_INC AUTO_INC_DEF AUTO_DEC
         AUTO_DEC_DEF INDEX INDEX_DEF];
    unfold mem_read, assert; unfold_state.
  - (* Register *)
    split; [intros _ | intros Hc; discriminate Hc].
    do 2 eexists. split; [reflexivity|]. split; [exact Hv | intros _; exact Hst].
  - (* RegisterDeferred *)
    split; [intros _ | intros Hc; discriminate Hc].
    rewrite shr1_in_mem by lia. cbn [bind].
    do 2 eexists. split; [reflexivity|].
    split; [apply mem_word16; assumption | intros _].
    apply (all_word16_same st); [assumption | reflexivity | reflexivity].
  - (* AutoIncrement *)
    split; [intros _ | intros Hc; discriminate Hc].
    pose proof (mem_word16 st _ Hst Hv) as Hw. unfold word16 in Hw.
    assert (Hlt : (mem st (CInt.shr (reg st (ap_reg p)) 1) <? BIT16) = true)
      by (apply Z.ltb_lt; unfold BIT16; lia).
    assert (Hlt' : (reg st (ap_reg p) <? BIT16) = true)
      by (apply Z.ltb_lt; unfold BIT16; lia).
    destruct (ap_reg p =? 7); unfold_state;
      rewrite Hlt', shr1_in_mem by lia; cbn [bind]; rewrite Hlt; cbn [bind];
      do 2 eexists; (split; [reflexivity|]);
      (split; [exact Hw | intros _]);
      eapply (all_word16_set_reg st); try reflexivity; try assumption;
      apply word16_land.
  - (* AutoIncrementDeferred *)
    split; [intros _ | intros Hc; discriminate Hc].
    pose proof (mem_word16 st _ Hst Hv) as Hw.
    rewrite shr1_in_mem by lia. cbn [bind].
    rewrite shr1_in_mem by exact Hw. cbn [bind].
    do 2 eexists. split; [reflexivity|].
    split; [apply mem_word16; assumption | intros Hc; exfalso; apply Hc; reflexivity].
  - (* AutoDecrement *)
    split; [intros _ | intros Hc; discriminate Hc].
    rewrite upd_same.
    pose proof (word16_land (CInt.sub (reg st (ap_reg p)) 2)) as Ha.
    rewrite shr1_in_mem by exact Ha. cbn [bind].
    do 2 eexists. split; [reflexivity|].
    split; [apply mem_word16; assumption | intros _].
    eapply (all_word16_set_reg st); try reflexivity; assumption.
  - (* AutoDecrementDeferred *)
    split; [intros Hc; exfalso; apply Hc; reflexivity | intros _].
    rewrite upd_same. split.
    + intros Hlow. rewrite sub_small by lia.
      replace (in_mem (CInt.shr (reg st (ap_reg p) - 2) 1)) with false;
        [reflexivity|].
      symmetry. unfold in_mem, CInt.shr.
      rewrite Z.shiftr_div_pow2 by lia. change (2 ^ 1) with 2.
      replace (0 <=? (reg st (ap_reg p) - 2) / 2) with false; [reflexivity|].
      symmetry. apply Z.leb_gt. apply Z.div_lt_upper_bound; lia.
    + intros Hhigh. rewrite sub_small by lia.
      assert (Ha : 0 <= reg st (ap_reg p) - 2 <= 65535) by lia.
      pose proof (mem_word16 st _ Hst Ha) as Hw.
      rewrite shr1_in_mem by exact Ha. cbn [bind].
      rewrite shr1_in_mem by exact Hw. cbn [bind].
      do 2 eexists. split; [reflexivity|].
      split; [apply mem_word16; assumption|].
      eapply (all_word16_set_reg st); try reflexivity; try assumption.
  - (* Index *)
    split; [intros _ | intros Hc; discriminate Hc].
    rewrite shr1_in_mem by exact Hpc. cbn [bind].
    match goal with
    | |- context [in_mem (CInt.shr (Z.land ?x MASK16) 1)] =>
        pose proof (word16_land x) as Ha
    end.
    rewrite shr1_in_mem by exact Ha. cbn [bind].
    do 2 eexists. split; [reflexivity|].
    split; [apply mem_word16; assumption | intros _].
    eapply (all_word16_set_reg st); try reflexivity; try assumption.
    apply word16_land.
  - (* IndexDeferred *)
    split; [intros _ | intros Hc; discriminate Hc].
    rewrite shr1_in_mem by exact Hpc. cbn [bind].
    match goal with
    | |- context [in_mem (CInt.shr (Z.land ?x MASK16) 1)] =>
        pose proof (word16_land x) as Ha
    end.
    pose proof (mem_word16 st _ Hst Ha) as Hw.
    rewrite shr1_in_mem by exact Ha. cbn [bind].
    rewrite shr1_in_mem by exact Hw. cbn [bind].
    do 2 eexists. split; [reflexivity|].
    split; [apply mem_word16; assumption | intros _].
    eapply (all_word16_set_reg st); try reflexivity; try assumption.
    apply word16_land.
Qed.

(** AutoDecrement on R0 = 0 in a loaded program: the register wraps to
    0177776 and the state stays 16-bit. *)
Lemma X6_witness :
  exists p' st',
    get_operand (mkAP AUTO_DEC 0 0 0) (loaded prog_mov_add) = Ok (p', st') /\
    word16 (ap_value p') /\ all_word16 st'.
Proof.
  assert (H : all_word16 (loaded prog_mov_add)).
  { apply (loaded_word16 prog_mov_add); [reflexivity|].
    unfold prog_mov_add, word16. repeat constructor; lia. }
  destruct (proj1 (X6_operand_safety (mkAP AUTO_DEC 0 0 0)
                     (loaded prog_mov_add) H
                     ltac:(vm_compute; split; first [reflexivity | discriminate])
                     ltac:(vm_compute; split; discriminate))
              ltac:(discriminate))
    as (p' & st' & Hg & Hv & Hinv).
  exists p', st'. split; [exact Hg|]. split; [exact Hv|].
  apply Hinv. discriminate.
Defined.

(** ** The modes one by one *)

Lemma wrap_mod16 (z : Z) : CInt.wrap z mod 65536 = z mod 65536.
Proof.
  unfold CInt.wrap.
  pose proof (Z.div_mod (z + 2147483648) 4294967296 ltac:(lia)) as H.
  replace ((z + 2147483648) mod 4294967296 - 2147483648)
    with (z + (- ((z + 2147483648) / 4294967296) * 65536) * 65536) by lia.
  apply Z_mod_plus_full.
Qed.

Lemma land_add_mod16 (a b : Z) :
  Z.land (CInt.add a b) MASK16 = (a + b) mod 65536.
Proof. rewrite land_MASK16. apply wrap_mod16. Qed.

Lemma shr1_div2 (a : Z) : CInt.shr a 1 = a / 2.
Proof. unfold CInt.shr. rewrite Z.shiftr_div_pow2 by lia. reflexivity. Qed.

Lemma mod16_word16 (z : Z) : 0 <= z mod 65536 <= 65535.
Proof. pose proof (Z.mod_pos_bound z 65536 ltac:(lia)). lia. Qed.

Lemma auto_dec_resolves (p : addr_phrase) (st : state) :
  ap_mode p = AUTO_DEC ->
  exists st',
    get_operand p st
    = Ok (mkAP AUTO_DEC (ap_reg p) ((reg st (ap_reg p) - 2) mod 65536)
            (mem st ((reg st (ap_reg p) - 2) mod 65536 / 2)), st') /\
    reg st' (ap_reg p) = (reg st (ap_reg p) - 2) mod 65536 /\
    words_read st' = CInt.add (words_read st) 1.
Proof.
  intros Hm. unfold get_operand. rewrite Hm.
  cbn [Z.eqb Pos.eqb REG REG_DEF AUTO_INC AUTO_INC_DEF AUTO_DEC].
  unfold mem_read. unfold_state. rewrite upd_same, land_MASK16.
  unfold CInt.sub. rewrite wrap_mod16.
  rewrite shr1_in_mem by apply mod16_word16. cbn [bind].
  rewrite shr1_div2. eexists. split; [reflexivity|]. unfold_state.
  rewrite upd_same. split; reflexivity.
Qed.

(** X7: AutoDecrement cannot fail, whatever the register holds: the
    register becomes its value minus 2 modulo 65536 (0 and 1 wrap to
    0177776 and 0177777), which is the effective address, the operand is
    the memory word there, and one data word read is counted. *)
Theorem X7_auto_dec_total (p : addr_phrase) (st : state) :
  ap_mode p = AUTO_DEC ->
  exists st',
    get_operand p st
    = Ok (mkAP AUTO_DEC (ap_reg p) ((reg st (ap_reg p) - 2) mod 65536)
            (mem st ((reg st (ap_reg p) - 2) mod 65536 / 2)), st') /\
    reg st' (ap_reg p) = (reg st (ap_reg p) - 2) mod 65536 /\
    words_read st' = CInt.add (words_read st) 1.
Proof. apply auto_dec_resolves. Qed.

(** AutoDecrement on a register holding 1. *)
Lemma X7_witness :
  exists st',
    get_operand (mkAP AUTO_DEC 3 0 0) (set_reg zero_state 3 1)
    = Ok (mkAP AUTO_DEC 3 65535 0, st') /\
    reg st' 3 = 65535 /\ words_read st' = 1.
Proof.
  destruct (X7_auto_dec_total (mkAP AUTO_DEC 3 0 0) (set_reg zero_state 3 1)
              eq_refl) as (st' & Hg & Hr & Hw).
  exists st'. split; [exact Hg|]. split; [exact Hr | exact Hw].
Defined.

(** X8: AutoIncrementDeferred goes through two levels of indirection and
    adds 2, unmasked, to the register: the register points at a word that
    holds the effective address, the operand is the word at that address,
    and no other register changes. *)
Theorem X8_auto_inc_deferred (p : addr_phrase) (st : state) :
  ap_mode p = AUTO_INC_DEF ->
  0 <= reg st (ap_reg p) <= 65535 ->
  0 <= mem st (reg st (ap_reg p) / 2) <= 65535 ->
  exists st',
    get_operand p st
    = Ok (mkAP AUTO_INC_DEF (ap_reg p) (mem st (reg st (ap_reg p) / 2))
            (mem st (mem st (reg st (ap_reg p) / 2) / 2)), st') /\
    reg st' (ap_reg p) = reg st (ap_reg p) + 2 /\
    (forall k, k <> ap_reg p -> reg st' k = reg st k) /\
    words_read st' = CInt.add (words_read st) 1.
Proof.
  intros Hm Hr Ha. unfold get_operand. rewrite Hm.
  cbn [Z.eqb Pos.eqb REG REG_DEF AUTO_INC AUTO_INC_DEF].
  unfold mem_read. unfold_state.
  rewrite shr1_in_mem by exact Hr. cbn [bind].
  rewrite !shr1_div2. rewrite <- (shr1_div2 (mem st _)).
  rewrite shr1_in_mem by exact Ha. cbn [bind]. rewrite shr1_div2.
  eexists. split; [reflexivity|]. unfold_state.
  rewrite upd_same, add_small by lia.
  repeat split. intros k Hk. apply upd_other, Hk.
Qed.

(** R2 = 2 points at word 1 of MOV #5, R0; ADD #3, R0; halt, which holds 5;
    the operand is the word at address 5, word 2. *)
Lemma X8_witness :
  exists st',
    get_operand (mkAP AUTO_INC_DEF 2 0 0) (set_reg (loaded prog_mov_add) 2 2)
    = Ok (mkAP AUTO_INC_DEF 2 5 26048, st') /\
    reg st' 2 = 4.
Proof.
  destruct (X8_auto_inc_deferred (mkAP AUTO_INC_DEF 2 0 0)
              (set_reg (loaded prog_mov_add) 2 2) eq_refl
              ltac:(vm_compute; split; discriminate)
              ltac:(vm_compute; split; discriminate))
    as (st' & Hg & Hr & _).
  exists st'. split; [exact Hg | exact Hr].
Defined.

(** X9: the index modes read the displacement at the PC, advance the PC by
    2 modulo 65536, and address memory at the register plus the
    displacement modulo 65536; the register is read before the PC is
    advanced, also when it is the PC itself.  IndexDeferred takes the word
    there as the address of the operand. *)
Theorem X9_index_modes (p : addr_phrase) (st : state) :
  0 <= reg st 7 <= 65535 ->
  (ap_mode p = INDEX ->
   exists st',
     get_operand p st
     = Ok (mkAP INDEX (ap_reg p)
             ((reg st (ap_reg p) + mem st (reg st 7 / 2)) mod 65536)
             (mem st ((reg st (ap_reg p) + mem st (reg st 7 / 2))
                      mod 65536 / 2)), st') /\
     reg st' 7 = (reg st 7 + 2) mod 65536 /\
     (forall k, k <> 7 -> reg st' k = reg st k)) /\
  (ap_mode p = INDEX_DEF ->
   0 <= mem st ((reg st (ap_reg p) + mem st (reg st 7 / 2)) mod 65536 / 2)
     <= 65535 ->
   exists st',
     get_operand p st
     = Ok (mkAP INDEX_DEF (ap_reg p)
             (mem st ((reg st (ap_reg p) + mem st (reg st 7 / 2))
                      mod 65536 / 2))
             (mem st (mem st ((reg st (ap_reg p) + mem st (reg st 7 / 2))
                              mod 65536 / 2) / 2)), st') /\
     reg st' 7 = (reg st 7 + 2) mod 65536 /\
     (forall k, k <> 7 -> reg st' k = reg st k)).
Proof.
  intros Hpc. split; intros Hm; [|intros Ha]; unfold get_operand; rewrite Hm;
    cbn [Z.eqb Pos.eqb REG REG_DEF AUTO_INC AUTO_INC_DEF AUTO_DEC
         AUTO_DEC_DEF INDEX INDEX_DEF];
    unfold mem_read; unfold_state;
    rewrite shr1_in_mem by exact Hpc; cbn [bind];
    rewrite !land_add_mod16;
    rewrite shr1_in_mem by apply mod16_word16; cbn [bind];
    rewrite !shr1_div2.
  - eexists. split; [reflexivity|]. unfold_state.
    rewrite upd_same.
    split; [reflexivity|]. intros k Hk. apply upd_other, Hk.
  - rewrite <- (shr1_div2 (mem st _)).
    rewrite shr1_in_mem by exact Ha. cbn [bind]. rewrite shr1_div2.
    eexists. split; [reflexivity|]. unfold_state.
    rewrite upd_same.
    split; [reflexivity|]. intros k Hk. apply upd_other, Hk.
Qed.

(** Index on R1 = 4 with the displacement 5 at the PC: the operand is at
    address 011, word 4. *)
Lemma X9_witness :
  exists st',
    get_operand (mkAP INDEX 1 0 0)
      (set_reg (set_reg (loaded prog_mov_add) 1 4) 7 2)
    = Ok (mkAP INDEX 1 9 0, st') /\
    reg st' 7 = 4 /\ reg st' 1 = 4.
Proof.
  destruct (proj1 (X9_index_modes (mkAP INDEX 1 0 0)
                     (set_reg (set_reg (loaded prog_mov_add) 1 4) 7 2)
                     ltac:(vm_compute; split; discriminate)) eq_refl)
    as (st' & Hg & Hpc & Hk).
  exists st'. split; [exact Hg|]. split; [exact Hpc|].
  exact (Hk 1 ltac:(discriminate)).
Defined.

(** ** The arithmetic of CMP, ADD and SUB *)

Lemma testbit15_range (x : Z) :
  0 <= x <= 65535 -> Z.testbit x 15 = (32768 <=? x).
Proof.
  intros Hx. pose proof (Z.testbit_spec' x 15 ltac:(lia)) as Hb.
  change (2 ^ 15) with 32768 in Hb.
  destruct (Z.leb_spec 32768 x) as [Hge|Hlt].
  - replace (x / 32768) with 1 in Hb
      by (apply Z.div_unique with (r := x - 32768); lia).
    destruct (Z.testbit x 15); [reflexivity | discriminate Hb].
  - replace (x / 32768) with 0 in Hb by (symmetry; apply Z.div_small; lia).
    destruct (Z.testbit x 15); [discriminate Hb | reflexivity].
Qed.

Lemma sign_land_range (x : Z) :
  0 <= x <= 65535 ->
  Z.land x SIGN16 = if 32768 <=? x then 32768 else 0.
Proof.
  intros Hx. change SIGN16 with (2 ^ 15).
  rewrite land_pow2, testbit15_range by lia. reflexivity.
Qed.

Ltac split_comparisons :=
  repeat match goal with
    | |- context [?a <=? ?b] => destruct (Z.leb_spec a b)
    | |- context [?a <? ?b] => destruct (Z.ltb_spec a b)
    | |- context [?a =? ?b] => destruct (Z.eqb_spec a b)
    end.

(** The flags of ADD on two 16-bit words, in arithmetic terms. *)
Lemma add_flags_meaning (a b : Z) :
  0 <= a <= 65535 -> 0 <= b <= 65535 ->
  let result := Z.land (CInt.add a b) MASK16 in
  result = (a + b) mod 65536 /\
  flag (nonzero (Z.land result SIGN16)) = Z.b2z (32768 <=? result) /\
  flag ((Z.land a SIGN16 =? Z.land b SIGN16)
        && negb (Z.land a SIGN16 =? Z.land result SIGN16))
  = Z.b2z (negb (fits16 (signed16 a + signed16 b))) /\
  flag (result <? CInt.add a b) = Z.b2z (65536 <=? a + b).
Proof.
  intros Ha Hb. cbv zeta. rewrite land_add_mod16, add_small by lia.
  pose proof (mod16_word16 (a + b)) as Hr.
  assert (Hcases : (a + b < 65536 /\ (a + b) mod 65536 = a + b) \/
                   (65536 <= a + b /\ (a + b) mod 65536 = a + b - 65536)).
  { destruct (Z.lt_ge_cases (a + b) 65536); [left | right]; split; trivial.
    - apply Z.mod_small; lia.
    - symmetry; apply Z.mod_unique with (q := 1); lia. }
  rewrite !sign_land_range by lia.
  unfold signed16.
  destruct (Z.ltb_spec a 32768), (Z.ltb_spec b 32768);
    unfold fits16, nonzero;
    destruct Hcases as [[Hc Hs] | [Hc Hs]]; rewrite Hs in *;
    repeat split; split_comparisons; cbn; try reflexivity; lia.
Qed.

(** The flags of a subtraction [x - y] of two 16-bit words as CMP and SUB
    compute them, in arithmetic terms; [s] is the operand whose sign the
    source compares with the result's. *)
Lemma sub_flags_meaning (x y : Z) :
  0 <= x <= 65535 -> 0 <= y <= 65535 ->
  let diff := CInt.sub x y in
  let result := Z.land diff MASK16 in
  result = (x - y) mod 65536 /\
  CInt.shr (Z.land diff BIT16) 16 = Z.b2z (x <? y) /\
  flag (nonzero (Z.land result SIGN16)) = Z.b2z (32768 <=? result) /\
  flag (result =? 0) = Z.b2z (x =? y) /\
  (* SUB: the sign of the subtrahend *)
  flag (negb (Z.land y SIGN16 =? Z.land x SIGN16)
        && (Z.land y SIGN16 =? Z.land result SIGN16))
  = Z.b2z (negb (fits16 (signed16 x - signed16 y))) /\
  (* CMP: the sign of the minuend *)
  flag (negb (Z.land x SIGN16 =? Z.land y SIGN16)
        && (Z.land x SIGN16 =? Z.land result SIGN16))
  = Z.b2z (negb (Bool.eqb (32768 <=? x) (32768 <=? y))
           && fits16 (signed16 x - signed16 y)).
Proof.
  intros Hx Hy. cbv zeta. rewrite sub_small by lia.
  rewrite carry_flag, land_MASK16.
  pose proof (mod16_word16 (x - y)) as Hr.
  assert (Hcases : (y <= x /\ (x - y) mod 65536 = x - y) \/
                   (x < y /\ (x - y) mod 65536 = x - y + 65536)).
  { destruct (Z.le_gt_cases y x); [left | right]; split; trivial.
    - apply Z.mod_small; lia.
    - symmetry; apply Z.mod_unique with (q := -1); lia. }
  assert (Hbit : Z.testbit (x - y) 16 = (x <? y)).
  { destruct (Z.ltb_spec x y) as [Hlt|Hge].
    - apply Z.bits_iff_neg; [|lia].
      rewrite Z.abs_neq by lia.
      apply Z.log2_lt_pow2; change (2 ^ 16) with 65536; lia.
    - destruct (Z.eq_dec (x - y) 0) as [->|Hne]; [apply Z.bits_0|].
      apply Z.bits_above_log2; [lia|].
      apply Z.log2_lt_pow2; change (2 ^ 16) with 65536; lia. }
  rewrite Hbit, !sign_land_range by lia.
  unfold signed16.
  destruct (Z.ltb_spec x 32768), (Z.ltb_spec y 32768);
    unfold fits16, nonzero;
    destruct Hcases as [[Hc Hs] | [Hc Hs]]; rewrite Hs in *;
    repeat split; split_comparisons; cbn; try reflexivity; lia.
Qed.

Lemma exec_CMP_REG (s d : Z) (st : state) :
  exec_CMP (mkAP REG s 0 0) (mkAP REG d 0 0) st
  = let sv := reg st s in
    let dv := reg st d in
    let diff := CInt.sub sv dv in
    let result := Z.land diff MASK16 in
    Ok (with_cc st
          (flag (nonzero (Z.land result SIGN16)))
          (flag (result =? 0))
          (flag (negb (Z.land sv SIGN16 =? Z.land dv SIGN16)
                 && (Z.land sv SIGN16 =? Z.land result SIGN16)))
          (CInt.shr (Z.land diff BIT16) 16)).
Proof. reflexivity. Qed.

(** X10: CMP of two registers holding the 16-bit values a (source) and b
    (destination) changes no register but the PC and no memory word; Z is
    set exactly when a = b, C exactly when a < b as unsigned numbers, N is
    bit 15 of a - b modulo 65536, and V is set exactly when the signs of a
    and b differ and the signed difference fits in 16 bits.  CMP of a value
    with itself gives N = 0, Z = 1, V = 0, C = 0. *)
Theorem X10_cmp_registers (st st0 : state) (w s d : Z) :
  fetch st = Ok (w, st0) -> reg_to_reg FCMP s d w ->
  s <> 7 -> d <> 7 ->
  0 <= reg st s <= 65535 -> 0 <= reg st d <= 65535 ->
  exists st',
    step st = Running st' /\
    reg st' = reg st0 /\ mem st' = mem st /\
    cc_z st' = Z.b2z (reg st s =? reg st d) /\
    cc_c st' = Z.b2z (reg st s <? reg st d) /\
    cc_n st' = Z.b2z (32768 <=? (reg st s - reg st d) mod 65536) /\
    cc_v st' = Z.b2z (negb (Bool.eqb (32768 <=? reg st s) (32768 <=? reg st d))
                      && fits16 (signed16 (reg st s) - signed16 (reg st d))) /\
    (reg st s = reg st d -> nzvc st' = (0, 1, 0, 0)).
Proof.
  intros Hf (Hd & Hs & Ht) Hs7 Hd7 Ha Hb.
  destruct (fetch_frame _ _ _ Hf) as (Hregs & Hmem & _).
  rewrite (step_execute _ _ _ _ Hf Hd). unfold execute.
  rewrite Hd, Hs, Ht, exec_CMP_REG. cbv zeta. cbn [continue].
  rewrite (Hregs s Hs7), (Hregs d Hd7).
  destruct (sub_flags_meaning (reg st s) (reg st d) Ha Hb)
    as (Hres & Hc & Hn & Hz & _ & Hv).
  cbv zeta in Hres, Hc, Hn, Hz, Hv.
  eexists. split; [reflexivity|]. unfold_state.
  rewrite Hc, Hn, Hz, Hv, Hres.
  repeat split; try assumption.
  intros E. unfold nzvc. unfold_state. rewrite E.
  rewrite Z.sub_diag, Z.eqb_refl, Z.ltb_irrefl, Bool.eqb_reflx. reflexivity.
Qed.

(** CMP R1, R2 -- the word 020102 -- with R1 = R2 = 0123456. *)
Lemma X10_witness :
  exists st',
    step (with_reg (with_mem zero_state (upd (fun _ => 0) 0 8258))
            (upd (upd (fun _ => 0) 1 42798) 2 42798))
    = Running st' /\ nzvc st' = (0, 1, 0, 0).
Proof.
  destruct (X10_cmp_registers
              (with_reg (with_mem zero_state (upd (fun _ => 0) 0 8258))
                 (upd (upd (fun _ => 0) 1 42798) 2 42798))
              _ 8258 1 2 eq_refl
              (conj eq_refl (conj eq_refl eq_refl))
              ltac:(discriminate) ltac:(discriminate)
              ltac:(vm_compute; split; discriminate)
              ltac:(vm_compute; split; discriminate))
    as (st' & Hs & _ & _ & _ & _ & _ & _ & Hsame).
  exists st'. split; [exact Hs | exact (Hsame eq_refl)].
Defined.

(** X11: ADD of a register holding the 16-bit value a into another holding
    b leaves (a + b) modulo 65536 in the destination and changes no other
    register but the PC and no memory word; C is the carry out of bit 15,
    V the signed overflow, Z and N describe the 16-bit result. *)
Theorem X11_add_registers (st st0 : state) (w s d : Z) :
  fetch st = Ok (w, st0) -> reg_to_reg FADD s d w ->
  s <> 7 -> d <> 7 ->
  0 <= reg st s <= 65535 -> 0 <= reg st d <= 65535 ->
  exists st',
    step st = Running st' /\
    reg st' d = (reg st s + reg st d) mod 65536 /\
    (forall k, k <> d -> reg st' k = reg st0 k) /\ mem st' = mem st /\
    cc_c st' = Z.b2z (65536 <=? reg st s + reg st d) /\
    cc_v st' = Z.b2z (negb (fits16 (signed16 (reg st s) + signed16 (reg st d)))) /\
    cc_z st' = Z.b2z ((reg st s + reg st d) mod 65536 =? 0) /\
    cc_n st' = Z.b2z (32768 <=? (reg st s + reg st d) mod 65536).
Proof.
  intros Hf (Hd & Hs & Ht) Hs7 Hd7 Ha Hb.
  destruct (fetch_frame _ _ _ Hf) as (Hregs & Hmem & _).
  rewrite (step_execute _ _ _ _ Hf Hd). unfold execute.
  rewrite Hd, Hs, Ht, exec_ADD_REG. cbv zeta. cbn [continue].
  rewrite (Hregs s Hs7), (Hregs d Hd7).
  destruct (add_flags_meaning (reg st s) (reg st d) Ha Hb)
    as (Hres & Hn & Hv & Hc).
  cbv zeta in Hres, Hn, Hv, Hc.
  eexists. split; [reflexivity|]. unfold_state.
  rewrite Hc, Hn, Hv, Hres, upd_same.
  repeat split; try assumption.
  intros k Hk. apply upd_other, Hk.
Qed.

(** ADD R1, R2 -- the word 060102 -- with R1 = 0177777 and R2 = 2: the sum
    wraps to 1 with a carry and no signed overflow (-1 + 2). *)
Lemma X11_witness :
  exists st',
    step state_add_sub = Running st' /\
    reg st' 2 = 1 /\ cc_c st' = 1 /\ cc_v st' = 0.
Proof.
  destruct (X11_add_registers state_add_sub _ 24642 1 2 eq_refl
              (conj eq_refl (conj eq_refl eq_refl))
              ltac:(discriminate) ltac:(discriminate)
              ltac:(vm_compute; split; discriminate)
              ltac:(vm_compute; split; discriminate))
    as (st' & Hs & Hr & _ & _ & Hc & Hv & _).
  exists st'. split; [exact Hs|]. split; [exact Hr|].
  split; [exact Hc | exact Hv].
Defined.

(** X12: SUB of a register holding the 16-bit value a from another holding
    b leaves (b - a) modulo 65536 in the destination and changes no other
    register but the PC and no memory word; C is the borrow (b < a as
    unsigned numbers), V the signed overflow of b - a, Z is set exactly
    when a = b. *)
Theorem X12_sub_registers (st st0 : state) (w s d : Z) :
  fetch st = Ok (w, st0) -> reg_to_reg FSUB s d w ->
  s <> 7 -> d <> 7 ->
  0 <= reg st s <= 65535 -> 0 <= reg st d <= 65535 ->
  exists st',
    step st = Running st' /\
    reg st' d = (reg st d - reg st s) mod 65536 /\
    (forall k, k <> d -> reg st' k = reg st0 k) /\ mem st' = mem st /\
    cc_c st' = Z.b2z (reg st d <? reg st s) /\
    cc_v st' = Z.b2z (negb (fits16 (signed16 (reg st d) - signed16 (reg st s)))) /\
    cc_z st' = Z.b2z (reg st d =? reg st s) /\
    cc_n st' = Z.b2z (32768 <=? (reg st d - reg st s) mod 65536).
Proof.
  intros Hf (Hd & Hs & Ht) Hs7 Hd7 Ha Hb.
  destruct (fetch_frame _ _ _ Hf) as (Hregs & Hmem & _).
  rewrite (step_execute _ _ _ _ Hf Hd). unfold execute.
  rewrite Hd, Hs, Ht, exec_SUB_REG. cbv zeta. cbn [continue].
  rewrite (Hregs s Hs7), (Hregs d Hd7).
  destruct (sub_flags_meaning (reg st d) (reg st s) Hb Ha)
    as (Hres & Hc & Hn & Hz & Hv & _).
  cbv zeta in Hres, Hc, Hn, Hz, Hv.
  eexists. split; [reflexivity|]. unfold_state.
  rewrite Hc, Hn, Hz, Hv, Hres, upd_same.
  repeat split; try assumption.
  intros k Hk. apply upd_other, Hk.
Qed.

(** SUB R3, R2 -- the word 160302 -- at address 0 with R3 = 2 and
    R2 = 0100000: the most negative word minus 2 overflows. *)
Lemma X12_witness :
  exists st',
    step (with_reg (with_mem zero_state (upd (fun _ => 0) 0 57538))
            (upd (upd (fun _ => 0) 2 32768) 3 2))
    = Running st' /\
    reg st' 2 = 32766 /\ cc_c st' = 0 /\ cc_v st' = 1.
Proof.
  destruct (X12_sub_registers
              (with_reg (with_mem zero_state (upd (fun _ => 0) 0 57538))
                 (upd (upd (fun _ => 0) 2 32768) 3 2))
              _ 57538 3 2 eq_refl
              (conj eq_refl (conj eq_refl eq_refl))
              ltac:(discriminate) ltac:(discriminate)
              ltac:(vm_compute; split; discriminate)
              ltac:(vm_compute; split; discriminate))
    as (st' & Hs & Hr & _ & _ & Hc & Hv & _).
  exists st'. split; [exact Hs|]. split; [exact Hr|].
  split; [exact Hc | exact Hv].
Defined.

(** ** The arithmetic of ASL and ASR *)

Lemma exec_ASL_REG (d : Z) (st : state) :
  exec_ASL (mkAP REG d 0 0) st
  = let x := reg st d in
    let result := CInt.to_uint16 (CInt.shl x 1) in
    let n := flag (nonzero (Z.land result SIGN16)) in
    let c := flag (nonzero (Z.land x SIGN16)) in
    Ok (set_reg (with_cc st n (flag (result =? 0)) (Z.lxor c n) c) d result).
Proof. reflexivity. Qed.

Lemma exec_ASR_REG (d : Z) (st : state) :
  exec_ASR (mkAP REG d 0 0) st
  = let x := reg st d in
    let result :=
      CInt.to_uint16 (CInt.shr (CInt.shr (CInt.shl x 16) 16) 1) in
    let n := flag (nonzero (Z.land result SIGN16)) in
    let c := flag (nonzero (Z.land x 1)) in
    Ok (set_reg (with_cc st n (flag (result =? 0)) (Z.lxor c n) c) d result).
Proof. reflexivity. Qed.

Lemma asl_value (x : Z) : CInt.to_uint16 (CInt.shl x 1) = (2 * x) mod 65536.
Proof.
  unfold CInt.to_uint16, CInt.shl. rewrite wrap_mod16.
  rewrite Z.shiftl_mul_pow2 by lia. change (2 ^ 1) with 2.
  f_equal. lia.
Qed.

(** The shift pair by 16 reads a 16-bit word as a signed number. *)
Lemma shift16_signed (x : Z) :
  0 <= x <= 65535 -> CInt.shr (CInt.shl x 16) 16 = signed16 x.
Proof.
  intros Hx. unfold CInt.shr, CInt.shl, signed16.
  rewrite Z.shiftl_mul_pow2, Z.shiftr_div_pow2 by lia.
  change (2 ^ 16) with 65536.
  destruct (Z.ltb_spec x 32768) as [Hlt|Hge].
  - rewrite wrap_small by (unfold CInt.int_min, CInt.int_max; lia).
    apply Z.div_mul. lia.
  - unfold CInt.wrap.
    replace ((x * 65536 + 2147483648) mod 4294967296)
      with (x * 65536 + 2147483648 - 4294967296)
      by (apply Z.mod_unique with (q := 1); lia).
    replace (x * 65536 + 2147483648 - 4294967296 - 2147483648)
      with ((x - 65536) * 65536) by lia.
    apply Z.div_mul. lia.
Qed.

Lemma asr_value (x : Z) :
  0 <= x <= 65535 ->
  CInt.to_uint16 (CInt.shr (CInt.shr (CInt.shl x 16) 16) 1)
  = x / 2 + (if 32768 <=? x then 32768 else 0).
Proof.
  intros Hx. rewrite shift16_signed by exact Hx.
  unfold CInt.to_uint16, signed16. rewrite shr1_div2.
  pose proof (Z.div_mod x 2 ltac:(lia)) as Hd.
  pose proof (Z.mod_pos_bound x 2 ltac:(lia)) as Hm.
  destruct (Z.ltb_spec x 32768) as [Hlt|Hge];
    destruct (Z.leb_spec 32768 x); try lia.
  - rewrite Z.add_0_r. apply Z.mod_small. lia.
  - replace (x - 65536) with (x + (-32768) * 2) by lia.
    rewrite Z.div_add by lia.
    symmetry. apply Z.mod_unique with (q := -1); lia.
Qed.

Lemma lxor_flags (b1 b2 : bool) :
  Z.lxor (Z.b2z b1) (Z.b2z b2) = Z.b2z (xorb b1 b2).
Proof. destruct b1, b2; reflexivity. Qed.

(** X13: ASL of a register holding the 16-bit value x leaves 2x modulo
    65536 there; C is the old bit 15, N the new one, Z tells a zero
    result, and V = C xor N is set exactly when doubling x as a signed
    number overflows; nothing else but the PC changes. *)
Theorem X13_asl_register (st st0 : state) (w d : Z) :
  fetch st = Ok (w, st0) -> on_reg FASL d w -> d <> 7 ->
  0 <= reg st d <= 65535 ->
  exists st',
    step st = Running st' /\
    reg st' d = (2 * reg st d) mod 65536 /\
    (forall k, k <> d -> reg st' k = reg st0 k) /\ mem st' = mem st /\
    cc_c st' = Z.b2z (32768 <=? reg st d) /\
    cc_n st' = Z.b2z (32768 <=? (2 * reg st d) mod 65536) /\
    cc_z st' = Z.b2z ((2 * reg st d) mod 65536 =? 0) /\
    cc_v st' = Z.b2z (negb (fits16 (2 * signed16 (reg st d)))).
Proof.
  intros Hf (Hd & Ht) Hd7 Hx.
  destruct (fetch_frame _ _ _ Hf) as (Hregs & Hmem & _).
  rewrite (step_execute _ _ _ _ Hf Hd). unfold execute.
  rewrite Hd, Ht, exec_ASL_REG. cbv zeta. cbn [continue].
  rewrite (Hregs d Hd7), asl_value.
  pose proof (mod16_word16 (2 * reg st d)) as Hr.
  rewrite !sign_land_range by lia.
  eexists. split; [reflexivity|]. unfold_state. rewrite upd_same.
  assert (Hcases : (reg st d < 32768 /\
                    (2 * reg st d) mod 65536 = 2 * reg st d) \/
                   (32768 <= reg st d /\
                    (2 * reg st d) mod 65536 = 2 * reg st d - 65536)).
  { destruct (Z.lt_ge_cases (reg st d) 32768); [left | right]; split; trivial.
    - apply Z.mod_small; lia.
    - symmetry; apply Z.mod_unique with (q := 1); lia. }
  split; [reflexivity|]. split; [intros k Hk; apply upd_other, Hk|].
  split; [assumption|].
  unfold signed16. destruct (Z.ltb_spec (reg st d) 32768);
    unfold nonzero, fits16;
    destruct Hcases as [[Hc Hs] | [Hc Hs]]; try lia; rewrite Hs;
    repeat split; split_comparisons; cbn; try reflexivity; lia.
Qed.

(** ASL R1 -- the word 006301 -- with R1 = 0040000: the result 0100000 has
    changed sign. *)
Lemma X13_witness :
  exists st',
    step (with_reg (with_mem zero_state (upd (fun _ => 0) 0 3265))
            (upd (fun _ => 0) 1 16384))
    = Running st' /\
    reg st' 1 = 32768 /\ cc_c st' = 0 /\ cc_n st' = 1 /\ cc_v st' = 1.
Proof.
  destruct (X13_asl_register
              (with_reg (with_mem zero_state (upd (fun _ => 0) 0 3265))
                 (upd (fun _ => 0) 1 16384))
              _ 3265 1 eq_refl (conj eq_refl eq_refl)
              ltac:(discriminate) ltac:(vm_compute; split; discriminate))
    as (st' & Hs & Hr & _ & _ & Hc & Hn & _ & Hv).
  exists st'. split; [exact Hs|]. split; [exact Hr|].
  split; [exact Hc|]. split; [exact Hn | exact Hv].
Defined.

(** X14: ASR of a register holding the 16-bit value x leaves x halved with
    bit 15 kept (x / 2, plus 0100000 when x is negative); C is the old
    bit 0, N the kept sign, V = C xor N; nothing else but the PC changes. *)
Theorem X14_asr_register (st st0 : state) (w d : Z) :
  fetch st = Ok (w, st0) -> on_reg FASR d w -> d <> 7 ->
  0 <= reg st d <= 65535 ->
  exists st',
    step st = Running st' /\
    reg st' d = reg st d / 2 + (if 32768 <=? reg st d then 32768 else 0) /\
    (forall k, k <> d -> reg st' k = reg st0 k) /\ mem st' = mem st /\
    cc_c st' = Z.b2z (Z.odd (reg st d)) /\
    cc_n st' = Z.b2z (32768 <=? reg st d) /\
    cc_v st' = Z.b2z (xorb (Z.odd (reg st d)) (32768 <=? reg st d)).
Proof.
  intros Hf (Hd & Ht) Hd7 Hx.
  destruct (fetch_frame _ _ _ Hf) as (Hregs & Hmem & _).
  rewrite (step_execute _ _ _ _ Hf Hd). unfold execute.
  rewrite Hd, Ht, exec_ASR_REG. cbv zeta. cbn [continue].
  rewrite (Hregs d Hd7), asr_value by exact Hx.
  pose proof (Z.div_mod (reg st d) 2 ltac:(lia)) as Hdm.
  pose proof (Z.mod_pos_bound (reg st d) 2 ltac:(lia)) as Hmb.
  assert (Hn : flag (nonzero (Z.land
                 (reg st d / 2 + (if 32768 <=? reg st d then 32768 else 0))
                 SIGN16))
               = Z.b2z (32768 <=? reg st d)).
  { rewrite sign_land_range
      by (destruct (Z.leb_spec 32768 (reg st d)); lia).
    unfold nonzero.
    destruct (Z.leb_spec 32768 (reg st d)); split_comparisons; cbn;
      try reflexivity; lia. }
  rewrite Hn, low_flag, Z.bit0_odd, lxor_flags.
  eexists. split; [reflexivity|]. unfold_state. rewrite upd_same.
  repeat split; try assumption.
  intros k Hk. apply upd_other, Hk.
Qed.

(** ASR R2 -- the word 006202 -- with R2 = 0100001: the result is 0140000
    with C set. *)
Lemma X14_witness :
  exists st',
    step state_asr = Running st' /\
    reg st' 2 = 49152 /\ cc_c st' = 1 /\ cc_n st' = 1 /\ cc_v st' = 0.
Proof.
  destruct (X14_asr_register state_asr _ 3202 2 eq_refl (conj eq_refl eq_refl)
              ltac:(discriminate) ltac:(vm_compute; split; discriminate))
    as (st' & Hs & Hr & _ & _ & Hc & Hn & Hv).
  exists st'. split; [exact Hs|]. split; [exact Hr|].
  split; [exact Hc|]. split; [exact Hn | exact Hv].
Defined.



(** ** What every turn of the loop keeps *)

Lemma bit01_flag (b : bool) : bit01 (flag b).
Proof. destruct b; [right | left]; reflexivity. Qed.

Lemma bit01_carry (x : Z) : bit01 (CInt.shr (Z.land x BIT16) 16).
Proof.
  rewrite carry_flag. destruct (Z.testbit x 16); [right | left]; reflexivity.
Qed.

Lemma bit01_lxor (a b : bool) : bit01 (Z.lxor (flag a) (flag b)).
Proof. destruct a, b; cbn; [left | right | right | left]; reflexivity. Qed.

Lemma get_operand_instr_exec (p p' : addr_phrase) (st st' : state) :
  get_operand p st = Ok (p', st') -> instr_exec st' = instr_exec st.
Proof.
  intros H. mode_cases H; resolve_reads H; reflexivity.
Qed.

(** Resolve the operands of an instruction body in hypothesis [H]. *)
Ltac resolve_operand H :=
  match type of H with
  | context [get_operand ?p ?s] =>
      let E := fresh "E" in
      let F := fresh "F" in
      let N := fresh "N" in
      destruct (get_operand p s) as [[? ?]|] eqn:E;
      [ pose proof (get_operand_frame _ _ _ _ E) as F;
        pose proof (get_operand_instr_exec _ _ _ _ E);
        destruct F as (? & _ & ? & N & ? & ? & ?);
        unfold nzvc in N; injection N as ? ? ? ?
      | discriminate H ];
      cbn [bind continue state_of] in H
  end.

Lemma some_inj {A : Type} (a b : A) : Some a = Some b -> a = b.
Proof. intros H. injection H as H. exact H. Qed.

Ltac rewrite_frames :=
  repeat match goal with
    | E : ?f ?s = ?f ?t |- _ => rewrite E in *; clear E
    end.

Ltac flags_kept :=
  intros (? & ? & ? & ?); repeat split;
  match goal with
  | |- bit01 (flag _) => apply bit01_flag
  | |- bit01 (CInt.shr _ _) => apply bit01_carry
  | |- bit01 (Z.lxor _ _) => apply bit01_lxor
  | |- bit01 0 => left; reflexivity
  | |- bit01 _ => assumption
  end.

Ltac summary_done H :=
  cbn [bind continue state_of] in H; apply some_inj in H;
  match type of H with _ = ?x => subst x end; unfold_state;
  rewrite_frames;
  split; [flags_kept|];
  (split; [intros ?; split; reflexivity|]);
  (split; [reflexivity|]);
  first [ left; split; reflexivity
        | right; split; [reflexivity|]; first [left; reflexivity | right; reflexivity] ].

(** What one executed instruction does to the flags, to memory and to the
    branch counters. *)
Lemma execute_summary (w : Z) (st0 st' : state) :
  state_of (execute w st0) = Some st' ->
  (flags01 st0 -> flags01 st') /\
  (stores w = false ->
   mem st' = mem st0 /\ words_written st' = words_written st0) /\
  instr_exec st' = instr_exec st0 /\
  ((br_exec st' = br_exec st0 /\ br_taken st' = br_taken st0) \/
   (br_exec st' = CInt.add (br_exec st0) 1 /\
    (br_taken st' = br_taken st0 \/
     br_taken st' = CInt.add (br_taken st0) 1))).
Proof.
  unfold execute, stores, flags01.
  destruct (decode w) as [[]|]; cbn [continue state_of]; intros H.
  - (* MOV *)
    unfold exec_MOV in H. resolve_operand H. resolve_operand H.
    match goal with
    | M : ap_mode ?d = ap_mode (dst_of w) |- _ => rewrite M in H
    end.
    destruct (ap_mode (dst_of w) =? 2) eqn:Em.
    + unfold mem_write in H.
      match type of H with
      | context [if ?c then _ else _] => destruct c; [|discriminate H]
      end.
      cbn [bind continue state_of] in H; apply some_inj in H; subst st'; unfold_state.
      rewrite_frames.
      split; [flags_kept|]. split; [intros Hc; discriminate Hc|].
      split; [reflexivity|]. left; split; reflexivity.
    + summary_done H.
  - unfold exec_CMP in H. resolve_operand H. resolve_operand H.
    summary_done H.
  - unfold exec_ADD in H. resolve_operand H. resolve_operand H.
    summary_done H.
  - unfold exec_SUB in H. resolve_operand H. resolve_operand H.
    summary_done H.
  - unfold exec_BR in H. summary_done H.
  - unfold exec_BEQ in H. destruct (nonzero (cc_z _)) in H; summary_done H.
  - unfold exec_ASL in H. resolve_operand H. summary_done H.
  - unfold exec_ASR in H. resolve_operand H. summary_done H.
  - rewrite exec_SOB_eq in H. cbv zeta in H.
    destruct (nonzero (CInt.sub _ 1)) in H; summary_done H.
  - unfold exec_BNE in H. destruct (nonzero (cc_z _)) in H; cbn [negb] in H;
      summary_done H.
  - summary_done H.
Qed.

(** What one turn of the loop does to the flags, to memory and to the
    counters of executed instructions and branches. *)
Lemma step_summary (st st0 st' : state) (w : Z) :
  fetch st = Ok (w, st0) -> state_of (step st) = Some st' ->
  (flags01 st -> flags01 st') /\
  (stores w = false ->
   mem st' = mem st /\ words_written st' = words_written st) /\
  instr_exec st' = CInt.add (instr_exec st) 1 /\
  ((br_exec st' = br_exec st /\ br_taken st' = br_taken st) \/
   (br_exec st' = CInt.add (br_exec st) 1 /\
    (br_taken st' = br_taken st \/
     br_taken st' = CInt.add (br_taken st) 1))).
Proof.
  intros Hf Hs. unfold step in Hs. rewrite Hf in Hs.
  destruct (fetch_frame _ _ _ Hf) as (_ & Hm & Hc & He & Ht & Hw).
  assert (Hi : instr_exec st0 = CInt.add (instr_exec st) 1)
    by (apply fetch_inv in Hf as (_ & _ & ->); reflexivity).
  assert (Hfl : flags01 st -> flags01 st0).
  { unfold flags01. unfold nzvc in Hc. injection Hc as -> -> -> ->. auto. }
  destruct (w =? 0).
  - cbn [state_of] in Hs. apply some_inj in Hs. subst st'.
    rewrite Hm, Hw, Hi, He, Ht.
    split; [exact Hfl|]. split; [intros _; split; reflexivity|].
    split; [reflexivity|]. left. split; reflexivity.
  - destruct (execute_summary _ _ _ Hs) as (Hfl' & Hst & Hi' & Hbr).
    rewrite Hm, Hw, Hi, He, Ht in *.
    split; [intros H; apply Hfl', Hfl, H|].
    split; [exact Hst|]. split; [exact Hi' | exact Hbr].
Qed.

Lemma step_fetches (st st' : state) :
  state_of (step st) = Some st' -> exists w st0, fetch st = Ok (w, st0).
Proof.
  unfold step. destruct (fetch st) as [[w st0]|]; [eauto | discriminate].
Qed.

(** X16: the four condition codes stay 0 or 1: a turn of the loop that
    starts with such flags ends with such flags, so every run of a loaded
    program does. *)
Theorem X16_flags_stay_bits :
  (forall st st', flags01 st -> state_of (step st) = Some st' -> flags01 st') /\
  (forall n ws st', ending_state (main n ws) = Some st' -> flags01 st').
Proof.
  assert (S1 : forall st st',
             flags01 st -> state_of (step st) = Some st' -> flags01 st').
  { intros st st' Hfl Hs. destruct (step_fetches _ _ Hs) as (w & st0 & Hf).
    apply (proj1 (step_summary _ _ _ _ Hf Hs)), Hfl. }
  split; [exact S1|].
  assert (R : forall n st st',
             flags01 st -> ending_state (run n st) = Some st' -> flags01 st').
  { induction n as [|n IH]; intros st st' Hfl He; cbn [run] in He.
    - cbn in He. apply some_inj in He. subst st'. exact Hfl.
    - destruct (step st) eqn:Es; cbn [ending_state] in He;
        try discriminate He.
      + apply (IH st0); [|exact He]. apply (S1 st); [exact Hfl|].
        rewrite Es. reflexivity.
      + apply some_inj in He. subst st'. apply (S1 st); [exact Hfl|].
        rewrite Es. reflexivity.
      + apply some_inj in He. subst st'. apply (S1 st); [exact Hfl|].
        rewrite Es. reflexivity. }
  intros n ws st' He. unfold main in He.
  destruct (load_program ws) as [st|] eqn:El; [|discriminate He].
  apply (R n st); [|exact He].
  destruct (Z_le_gt_dec (Z.of_nat (length ws)) MEM_SIZE) as [Hle|Hgt].
  - destruct (load_from_ok ws 0 zero_state ltac:(lia) ltac:(lia))
      as (st1 & Hl & _ & Hc & _).
    unfold load_program in El. rewrite Hl in El. injection El as <-.
    unfold flags01. unfold nzvc in Hc. injection Hc as -> -> -> ->.
    cbn. repeat split; left; reflexivity.
  - unfold load_program in El.
    rewrite load_from_overflow in El by (unfold MEM_SIZE in *; lia).
    discriminate El.
Qed.

(** X17: memory is written by one instruction only, MOV with an
    AutoIncrement destination: a turn of the loop on any other word,
    the halt word and an illegal word included, leaves every memory word
    and the written-words counter as they were. *)
Theorem X17_only_mov_stores (st st0 st' : state) (w : Z) :
  fetch st = Ok (w, st0) -> stores w = false ->
  state_of (step st) = Some st' ->
  mem st' = mem st /\ words_written st' = words_written st.
Proof.
  intros Hf Hw Hs. apply (proj1 (proj2 (step_summary _ _ _ _ Hf Hs))), Hw.
Qed.

(** ADD #3, R0 does not store. *)
Lemma X17_witness :
  exists st0 st',
    fetch (set_reg (loaded prog_mov_add) 7 4) = Ok (26048, st0) /\
    step (set_reg (loaded prog_mov_add) 7 4) = Running st' /\
    mem st' = mem (set_reg (loaded prog_mov_add) 7 4) /\
    words_written st' = words_written (set_reg (loaded prog_mov_add) 7 4).
Proof.
  do 2 eexists.
  split; [vm_compute; reflexivity|].
  split; [vm_compute; reflexivity|].
  eapply X17_only_mov_stores.
  - vm_compute. reflexivity.
  - vm_compute. reflexivity.
  - vm_compute. reflexivity.
Defined.

(** The run of MOV #5, R0; ADD #3, R0; halt ends with flags that are bits. *)
Lemma X16_witness :
  exists st',
    ending_state (main 3 prog_mov_add) = Some st' /\ flags01 st'.
Proof.
  eexists. split; [vm_compute; reflexivity|].
  apply (proj2 X16_flags_stay_bits 3%nat prog_mov_add).
  vm_compute. reflexivity.
Defined.

(** ** The statistics *)

Lemma increment (c : Z) :
  0 <= c < CInt.int_max -> CInt.add c 1 = c + 1.
Proof.
  intros H. apply increment_exact. unfold CInt.int_min. lia.
Qed.

(** One turn of the loop on plausible counters. *)
Lemma step_counts (st st' : state) :
  state_of (step st) = Some st' ->
  0 <= br_taken st <= br_exec st -> br_exec st <= instr_exec st ->
  instr_exec st < CInt.int_max ->
  instr_exec st' = instr_exec st + 1 /\
  br_taken st <= br_taken st' <= br_exec st' /\
  br_exec st <= br_exec st' <= br_exec st + 1.
Proof.
  intros Hs Ht He Hi. destruct (step_fetches _ _ Hs) as (w & st0 & Hf).
  destruct (step_summary _ _ _ _ Hf Hs) as (_ & _ & Hi' & Hbr).
  assert (I1 : CInt.add (instr_exec st) 1 = instr_exec st + 1)
    by (apply increment; lia).
  assert (I2 : CInt.add (br_exec st) 1 = br_exec st + 1)
    by (apply increment; lia).
  assert (I3 : CInt.add (br_taken st) 1 = br_taken st + 1)
    by (apply increment; lia).
  rewrite I1 in Hi'. rewrite I2, I3 in Hbr.
  destruct Hbr as [[E1 E2] | [E1 [E2 | E2]]]; lia.
Qed.

Lemma run_counts (n : nat) (st st' : state) :
  ending_state (run n st) = Some st' ->
  0 <= br_taken st <= br_exec st -> br_exec st <= instr_exec st ->
  instr_exec st + Z.of_nat n <= CInt.int_max ->
  br_taken st <= br_taken st' <= br_exec st' /\
  br_exec st' - br_exec st <= instr_exec st' - instr_exec st /\
  instr_exec st <= instr_exec st' <= instr_exec st + Z.of_nat n /\
  (forall s, run n st = Unfinished s ->
             instr_exec st' = instr_exec st + Z.of_nat n) /\
  (forall c r s, run n st = Exit c r s -> instr_exec st < instr_exec st').
Proof.
  revert st. induction n as [|n IH]; intros st Hr Ht He Hi.
  - cbn in Hr. apply some_inj in Hr. subst st'. cbn [run].
    repeat split; try lia; intros; try discriminate; lia.
  - rewrite Nat2Z.inj_succ in Hi. cbn [run] in *.
    destruct (step st) as [st1|st1|pc st1|f] eqn:Es;
      try discriminate Hr;
      (assert (Hs : state_of (step st) = Some st1)
         by (rewrite Es; reflexivity));
      destruct (step_counts _ _ Hs Ht He ltac:(lia)) as (Hi1 & Ht1 & He1).
    + destruct (IH st1 Hr ltac:(lia) ltac:(lia) ltac:(lia))
        as (A & B & C & D & E).
      repeat split; try lia; intros;
        try match goal with
          | Hx : run _ _ = Unfinished _ |- _ => rewrite (D _ Hx); lia
          | Hx : run _ _ = Exit _ _ _ |- _ => pose proof (E _ _ _ Hx); lia
          end.
    + cbn in Hr. apply some_inj in Hr. subst st'.
      repeat split; try lia; intros; try discriminate; lia.
    + cbn in Hr. apply some_inj in Hr. subst st'.
      repeat split; try lia; intros; try discriminate; lia.
Qed.

Lemma main_loaded_counters (ws : list Z) (st : state) :
  load_program ws = Ok st ->
  instr_exec st = 0 /\ br_exec st = 0 /\ br_taken st = 0.
Proof.
  intros El.
  destruct (Z_le_gt_dec (Z.of_nat (length ws)) MEM_SIZE) as [Hle|Hgt].
  - destruct (load_from_ok ws 0 zero_state ltac:(lia) ltac:(lia))
      as (st1 & Hl & _ & _ & Hi & _ & _ & _ & He & Ht & _).
    unfold load_program in El. rewrite Hl in El. injection El as <-.
    rewrite Hi, He, Ht. repeat split.
  - unfold load_program in El.
    rewrite load_from_overflow in El by (unfold MEM_SIZE in *; lia).
    discriminate El.
Qed.

(** X18: in every run of a loaded program of fewer than 2^31 turns the
    branch statistics are consistent: branches taken never exceed branches
    executed, and branches executed never exceed instructions executed. *)
Theorem X18_branch_statistics (n : nat) (ws : list Z) (st' : state) :
  Z.of_nat n <= CInt.int_max ->
  ending_state (main n ws) = Some st' ->
  0 <= br_taken st' <= br_exec st' /\ br_exec st' <= instr_exec st'.
Proof.
  intros Hn He. unfold main in He.
  destruct (load_program ws) as [st|] eqn:El; [|discriminate He].
  destruct (main_loaded_counters _ _ El) as (Hi & Hb & Ht).
  destruct (run_counts n st st' He ltac:(lia) ltac:(lia) ltac:(lia))
    as (A & B & _).
  lia.
Qed.

(** BR +1; BEQ +0 (not taken); BNE +0 (taken); halt -- the words 000401,
    0, 001400, 001000, 0. *)
Lemma X18_witness :
  exists st',
    ending_state (main 4 [257; 0; 768; 512; 0]) = Some st' /\
    (0 <= br_taken st' <= br_exec st' /\ br_exec st' <= instr_exec st') /\
    br_taken st' = 2 /\ br_exec st' = 3.
Proof.
  eexists. split; [vm_compute; reflexivity|]. split.
  - apply (X18_branch_statistics 4 [257; 0; 768; 512; 0]);
      [vm_compute; discriminate | vm_compute; reflexivity].
  - vm_compute. split; reflexivity.
Defined.

(** X19: the instructions-executed statistic counts the turns of the loop,
    the final turn on a halt word or an illegal word included: a run cut
    off after n turns has executed n instructions, and a run that exits
    within n turns has executed between 1 and n. *)
Theorem X19_instructions_counted (n : nat) (ws : list Z) (st' : state) :
  Z.of_nat n <= CInt.int_max ->
  (main n ws = Unfinished st' -> instr_exec st' = Z.of_nat n) /\
  (forall c r, main n ws = Exit c r st' ->
               1 <= instr_exec st' <= Z.of_nat n).
Proof.
  intros Hn. unfold main.
  destruct (load_program ws) as [st|] eqn:El;
    [|split; [intros H | intros c r H]; discriminate H].
  destruct (main_loaded_counters _ _ El) as (Hi & Hb & Ht).
  split.
  - intros H.
    destruct (run_counts n st st' ltac:(rewrite H; reflexivity)
                ltac:(lia) ltac:(lia) ltac:(lia)) as (_ & _ & _ & D & _).
    rewrite (D st' H). lia.
  - intros c r H.
    destruct (run_counts n st st' ltac:(rewrite H; reflexivity)
                ltac:(lia) ltac:(lia) ltac:(lia)) as (_ & _ & C & _ & E).
    pose proof (E c r st' H). lia.
Qed.

(** The run of MOV #5, R0; ADD #3, R0; halt: two turns leave 2, the third
    exits with 3. *)
Lemma X19_witness :
  (exists st', main 2 prog_mov_add = Unfinished st' /\ instr_exec st' = 2) /\
  (exists st', main 3 prog_mov_add = Exit 0 None st' /\
               1 <= instr_exec st' <= 3).
Proof.
  split.
  - eexists. split; [vm_compute; reflexivity|].
    apply (X19_instructions_counted 2 prog_mov_add);
      [vm_compute; discriminate | vm_compute; reflexivity].
  - eexists. split; [vm_compute; reflexivity|].
    apply (proj2 (X19_instructions_counted 3 prog_mov_add _
                    ltac:(vm_compute; discriminate)) 0 None).
    vm_compute. reflexivity.
Defined.

(** ** The SOB countdown *)

Lemma fetch_next_pc (st st0 : state) (w : Z) :
  fetch st = Ok (w, st0) -> reg st0 7 = (reg st 7 + 2) mod 65536.
Proof.
  intros H. apply fetch_inv in H as (_ & _ & ->). unfold_state.
  rewrite upd_same. apply land_add_mod16.
Qed.

(** X20: the one-instruction loop SOB Rn, 1 on a register holding k >= 1
    runs exactly k turns: the register ends at 0, the PC two bytes past the
    SOB, memory is untouched, k branches are counted as executed and k - 1
    as taken. *)
Theorem X20_sob_countdown (k : nat) (st : state) (w : Z) :
  decode w = Some FSOB -> Z.land w 63 = 1 -> ap_reg (src_of w) <> 7 ->
  0 <= reg st 7 <= 65535 ->
  CInt.to_unsigned (mem st (CInt.shr (reg st 7) 1)) = w ->
  reg st (ap_reg (src_of w)) = Z.of_nat (S k) ->
  0 <= br_taken st -> 0 <= br_exec st ->
  br_taken st + Z.of_nat (S k) <= CInt.int_max ->
  br_exec st + Z.of_nat (S k) <= CInt.int_max ->
  exists st',
    run (S k) st = Unfinished st' /\
    reg st' (ap_reg (src_of w)) = 0 /\
    reg st' 7 = (reg st 7 + 2) mod 65536 /\
    mem st' = mem st /\
    br_exec st' = br_exec st + Z.of_nat (S k) /\
    br_taken st' = br_taken st + Z.of_nat k.
Proof.
  intros Hd Hoff Hr. revert st.
  induction k as [|k IH]; intros st Hpc Hw Hreg Ht0 He0 Ht Hex;
    destruct (fetch_at st Hpc) as (st0 & Hf); rewrite Hw in Hf;
    pose proof (fetch_next_pc _ _ _ Hf) as Hnext;
    destruct (sob_step _ _ _ Hf Hd Hr)
      as (st1 & Hs & Hdec & Hpc1 & _ & Hm & He & Htk);
    rewrite Hreg in Hdec, Hpc1, Htk;
    unfold CInt.sub in Hdec, Hpc1, Htk;
    rewrite wrap_small in Hdec, Hpc1, Htk
      by (unfold CInt.int_min, CInt.int_max in *; lia);
    rewrite increment in He by lia.
  - (* the register holds 1: fall through *)
    change (Z.of_nat 1 - 1) with 0 in *. cbn [nonzero Z.eqb negb] in Hpc1, Htk.
    exists st1. cbn [run]. rewrite Hs. cbn [run].
    rewrite Hpc1, Hnext, He, Htk. repeat split; try assumption; lia.
  - (* the register holds more: back to the SOB *)
    replace (Z.of_nat (S (S k)) - 1) with (Z.of_nat (S k)) in * by lia.
    assert (Hnz : nonzero (Z.of_nat (S k)) = true).
    { unfold nonzero. apply negb_true_iff, Z.eqb_neq. lia. }
    rewrite Hnz, Hoff in *. rewrite increment in Htk by lia.
    assert (Hback : reg st1 7 = reg st 7).
    { rewrite Hpc1, Hnext. change (2 * 1) with 2.
      rewrite Zminus_mod_idemp_l.
      replace (reg st 7 + 2 - 2) with (reg st 7) by lia.
      apply Z.mod_small. lia. }
    destruct (IH st1) as (st' & Hrun & Hz & Hp & Hm' & He' & Ht');
      try (rewrite ?Hback, ?Hm, ?He, ?Htk; assumption || lia).
    exists st'. change (run (S (S k)) st) with
      (match step st with
       | Running s => run (S k) s
       | Halted s => Exit 0 None s
       | BadInstruction pc s => Exit (-1) (Some pc) s
       | Fault f => Crashed f
       end).
    rewrite Hs, Hrun, Hz, Hp, Hm', He', Ht', Hback, Hm, He, Htk.
    repeat split; lia.
Qed.

(** SOB R0, 1 -- the word 077001 -- at address 0 with R0 = 5. *)
Lemma X20_witness :
  exists st',
    run 5 (with_reg (with_mem zero_state (upd (fun _ => 0) 0 32257))
             (upd (fun _ => 0) 0 5))
    = Unfinished st' /\
    reg st' 0 = 0 /\ reg st' 7 = 2 /\ br_exec st' = 5 /\ br_taken st' = 4.
Proof.
  destruct (X20_sob_countdown 4
              (with_reg (with_mem zero_state (upd (fun _ => 0) 0 32257))
                 (upd (fun _ => 0) 0 5))
              32257 eq_refl eq_refl ltac:(discriminate)
              ltac:(vm_compute; split; discriminate) eq_refl eq_refl
              ltac:(vm_compute; discriminate) ltac:(vm_compute; discriminate)
              ltac:(vm_compute; discriminate) ltac:(vm_compute; discriminate))
    as (st' & Hrun & Hz & Hp & _ & He & Ht).
  exists st'. split; [exact Hrun|]. split; [exact Hz|].
  split; [exact Hp|]. split; [exact He | exact Ht].
Defined.

(** ** The illegal instruction and a store that is read back *)

(** X21: a nonzero word outside the ranges of the ten families, fetched at
    an address up to 0177775, ends the run with exit code -1 and the report
    of that address; up to the fetch itself (the PC and the two fetch
    counters) the machine is left as it was. *)
Theorem X21_illegal_word (st st0 : state) (w : Z) (n : nat) :
  fetch st = Ok (w, st0) -> w <> 0 -> family_of_range w = None ->
  reg st 7 <= 65533 ->
  run (S n) st = Exit (-1) (Some (reg st 7)) st0 /\
  mem st0 = mem st /\ nzvc st0 = nzvc st /\
  (forall r, r <> 7 -> reg st0 r = reg st r) /\
  words_read st0 = words_read st /\ br_exec st0 = br_exec st.
Proof.
  intros Hf Hw Hd Hpc. rewrite <- decode_as_range in Hd.
  pose proof (fetch_pc_range _ _ _ Hf) as Hr0.
  destruct (fetch_advances _ _ _ Hf Hpc) as (Hadv & _).
  destruct (fetch_frame _ _ _ Hf) as (Hregs & Hm & Hc & He & _).
  split; [|repeat split; try assumption].
  - cbn [run]. unfold step. rewrite Hf.
    apply Z.eqb_neq in Hw. rewrite Hw. unfold execute. rewrite Hd.
    rewrite sub_small by lia. do 2 f_equal. lia.
  - apply fetch_inv in Hf as (_ & _ & ->). reflexivity.
Qed.

(** The word 0100000 as a one-word program. *)
Lemma X21_witness :
  exists st0,
    run 1 (loaded [32768]) = Exit (-1) (Some 0) st0 /\
    mem st0 = mem (loaded [32768]).
Proof.
  eexists.
  match goal with
  | |- _ = Exit _ _ ?s /\ _ =>
      destruct (X21_illegal_word (loaded [32768]) s 32768 0)
        as (Hrun & Hm & _)
  end.
  - vm_compute. reflexivity.
  - discriminate.
  - reflexivity.
  - vm_compute. discriminate.
  - split; [exact Hrun | exact Hm].
Defined.


